(** * Portfolio builder: text normalisation, slugs, document assembly

    A shallow embedding of [app.py].  Python strings are sequences of Unicode
    code points, so a [str] is a list of code points ([N]); [len] is [length].
    The Flask form is a finite map from field names to strings, the output
    directory a finite map from paths to file contents, and the handlers are
    written in a small state-and-exception monad over that storage. *)

From Stdlib Require Import NArith ZArith Ascii String Strings.Byte List Bool Lia.
From stdpp Require Import base decidable option list gmap strings fin_maps.

Open Scope N_scope.

(** ** Python strings *)

Abbreviation char := N (only parsing).
Abbreviation str := (list N) (only parsing).

(** A string literal of the source (ASCII only). *)
Definition py (s : string) : str :=
  map N_of_ascii (list_ascii_of_string s).

(** The empty string literal. *)
Definition empty_str : str := [].

Definition LF : char := 10.
Definition CR : char := 13.
Definition SPACE : char := 32.
Definition COMMA : char := 44.
Definition HYPHEN : char := 45.
Definition PERIOD : char := 46.
Definition UNDERSCORE : char := 95.
(** U+2022, the bullet glyph of the list sections. *)
Definition BULLET : char := 8226.

(** [str.isspace] on one code point: the white-space table of CPython. *)
Definition isspace (c : char) : bool :=
  ((9 <=? c) && (c <=? 13)) || ((28 <=? c) && (c <=? 31)) || (c =? 32)
  || (c =? 133) || (c =? 160) || (c =? 5760)
  || ((8192 <=? c) && (c <=? 8202)) || (c =? 8232) || (c =? 8233)
  || (c =? 8239) || (c =? 8287) || (c =? 12288).

(** Truthiness of a string, and [a or b] on strings. *)
Definition truthy (s : str) : bool :=
  match s with [] => false | _ :: _ => true end.

Definition py_or (a b : str) : str := if truthy a then a else b.

(** [s.lstrip()], [s.rstrip()], [s.strip()]. *)
Fixpoint lstrip (s : str) : str :=
  match s with
  | [] => []
  | c :: s' => if isspace c then lstrip s' else s
  end.

Definition rstrip (s : str) : str := rev (lstrip (rev s)).

Definition strip (s : str) : str := rstrip (lstrip s).

(** [s.replace(old, new)] for a one-character [old]. *)
Fixpoint str_replace (old : char) (new : str) (s : str) : str :=
  match s with
  | [] => []
  | c :: s' =>
      if c =? old then new ++ str_replace old new s'
      else c :: str_replace old new s'
  end.

(** [sub in s] for a one-character [sub]. *)
Definition str_contains (sub : char) (s : str) : bool :=
  existsb (N.eqb sub) s.

(** [s.split(sep)] for a one-character [sep]: one field per separator. *)
Fixpoint str_split (sep : char) (s : str) : list str :=
  match s with
  | [] => [[]]
  | c :: s' =>
      if c =? sep then [] :: str_split sep s'
      else match str_split sep s' with
           | [] => [[c]]
           | w :: ws => (c :: w) :: ws
           end
  end.

(** ** The regular expressions of the source

    Both patterns are a single character set, [[^-\w.]] and [[,\n]+].  The
    class [\w] of a Unicode pattern is [str.isalnum] or the underscore.
    [isalnum] is fixed on ASCII; above it the answer comes from the Unicode
    database, which is a parameter here. *)

Definition ascii_alnum (c : char) : bool :=
  ((48 <=? c) && (c <=? 57)) || ((65 <=? c) && (c <=? 90))
  || ((97 <=? c) && (c <=? 122)).

Inductive set_item : Type :=
  | Lit (c : char)
  | WordClass.

Record charset : Type := CharSet { negated : bool; items : list set_item }.

(** [[^-\w.]] *)
Definition slug_pattern : charset :=
  CharSet true [Lit HYPHEN; WordClass; Lit PERIOD].

(** [[,\n]] (the source repeats it with [+]). *)
Definition sep_pattern : charset :=
  CharSet false [Lit COMMA; Lit LF].

(** ** Storage

    The output directory is flat: storage maps a path to the bytes of the
    file there.  A handler is a computation over storage that returns a
    value or raises. *)

Inductive exn : Type :=
  | RenderError
  | FileNotFoundError.

Inductive outcome (A : Type) : Type :=
  | Returned (a : A)
  | Raised (e : exn).
Arguments Returned {A} a.
Arguments Raised {A} e.

Definition M (A : Type) : Type :=
  gmap (list N) (list byte) -> outcome A * gmap (list N) (list byte).

Definition ret {A} (a : A) : M A := fun fs => (Returned a, fs).

Definition raise {A} (e : exn) : M A := fun fs => (Raised e, fs).

Definition bind {A B} (m : M A) (k : A -> M B) : M B :=
  fun fs =>
    match m fs with
    | (Returned a, fs') => k a fs'
    | (Raised e, fs') => (Raised e, fs')
    end.

Notation "'let*' x := m 'in' k" := (bind m (fun x => k))
  (at level 10, x name, m at level 100, k at level 200).

(** [os.path.exists(path)], on files: storage holds no directory, so a path
    that names one (the output directory itself) is not represented. *)
Definition os_path_exists (path : str) : M bool :=
  fun fs => (Returned (bool_decide (is_Some (fs !! path))), fs).

Definition write_file (path : str) (content : list byte) : M unit :=
  fun fs => (Returned tt, <[path := content]> fs).

Definition read_file (path : str) : M (list byte) :=
  fun fs =>
    match fs !! path with
    | Some content => (Returned content, fs)
    | None => (Raised FileNotFoundError, fs)
    end.

Definition SLASH : char := 47.

Definition startswith (c : char) (s : str) : bool :=
  match s with
  | [] => false
  | c' :: _ => c' =? c
  end.

Definition endswith (c : char) (s : str) : bool := startswith c (rev s).

(** [os.path.join(a, b)] (POSIX). *)
Definition os_path_join (a b : str) : str :=
  if startswith SLASH b then b
  else if negb (truthy a) || endswith SLASH a then a ++ b
  else a ++ [SLASH] ++ b.

Definition OUTPUT_DIR : str := py "generated_portfolios".

(** A display name with Latin-1 letters: two spaces, "Zo", U+00EB,
    " D.-Smith, 3", U+00B2 and a space. *)
Definition sample_name : str :=
  py "  Zo" ++ [235] ++ py " D.-Smith, 3" ++ [178; 32].

(** A submitted form. *)
Definition sample_form : gmap string (list N) :=
  <["skills" := py "Python, Rocq"]> {[ "name" := py "Jane Doe" ]}.

(** A form whose name is white space only, and one whose name is that of
    [sample_form] written with an underscore. *)
Definition blank_form : gmap string (list N) :=
  {[ "name" := py "   " ]}.

Definition other_form : gmap string (list N) :=
  <["skills" := py "Go"]> {[ "name" := py " Jane_Doe " ]}.

(** A storage holding one generated file. *)
Definition sample_storage : gmap (list N) (list byte) :=
  {[ py "generated_portfolios/Jane_Doe.pdf" := [x25; x50; x44; x46] ]}.

Section App.

Variable unicode_alnum : char -> bool.

Definition isalnum (c : char) : bool :=
  if c <? 128 then ascii_alnum c else unicode_alnum c.

Definition re_word (c : char) : bool := isalnum c || (c =? UNDERSCORE).

Definition item_match (c : char) (it : set_item) : bool :=
  match it with
  | Lit x => c =? x
  | WordClass => re_word c
  end.

Definition charset_match (cs : charset) (c : char) : bool :=
  xorb (negated cs) (existsb (item_match c) (items cs)).

(** [re.sub(cs, repl, s)]: every character of the set is a match. *)
Fixpoint re_sub (cs : charset) (repl : str) (s : str) : str :=
  match s with
  | [] => []
  | c :: s' =>
      if charset_match cs c then repl ++ re_sub cs repl s'
      else c :: re_sub cs repl s'
  end.

(** [re.search(cs+, s)]: the leftmost match, extended greedily; the result
    is the pair (start, end) of the match. *)
Fixpoint match_end (cs : charset) (s : str) : nat :=
  match s with
  | [] => 0%nat
  | c :: s' => if charset_match cs c then S (match_end cs s') else 0%nat
  end.

Fixpoint re_search_plus (cs : charset) (s : str) : option (nat * nat) :=
  match s with
  | [] => None
  | c :: s' =>
      if charset_match cs c then Some (0%nat, S (match_end cs s'))
      else match re_search_plus cs s' with
           | Some (i, j) => Some (S i, S j)
           | None => None
           end
  end.

(** [re.split(cs+, s)]: the text before each match, then the text after
    the last one.  A match is never empty, so [length s] rounds are enough
    ([re_split_loop_collapse] below). *)
Fixpoint re_split_loop (fuel : nat) (cs : charset) (s : str) : list str :=
  match fuel with
  | O => [s]
  | S fuel' =>
      match re_search_plus cs s with
      | None => [s]
      | Some (i, j) => take i s :: re_split_loop fuel' cs (drop j s)
      end
  end.

Definition re_split_plus (cs : charset) (s : str) : list str :=
  re_split_loop (length s) cs s.

(** ** [slugify] *)

Definition slugify (text : str) : str :=
  let text := str_replace SPACE (py "_") (strip text) in
  let text := re_sub slug_pattern empty_str text in
  py_or text (py "portfolio").

(** ** [make_list]

    [text] is [None] for Python's [None]. *)

Definition make_list_parts (text : str) (prefer_newline : bool) : list str :=
  let text := strip (str_replace CR empty_str text) in
  if prefer_newline && str_contains LF text
  then map strip (str_split LF text)
  else map strip (re_split_plus sep_pattern text).

Definition make_list (text : option str) (prefer_newline : bool) : list str :=
  match text with
  | None => []
  | Some [] => []
  | Some text =>
      let parts := make_list_parts text prefer_newline in
      List.filter (fun p => truthy p && (1 <? length p)%nat) parts
  end.

(** ** The document model of the layout library

    Lengths are numbers of the layout library (floating point); they are
    kept abstract.  [A4] is its page-size constant and [frame_width] is
    [doc.width], which the document template derives from the page size
    and the left and right margins. *)

Variable dim : Type.
Variable A4 : dim * dim.
Variable frame_width : dim * dim -> Z -> Z -> dim.

Record ParagraphStyle : Type := {
  style_name : string;
  parent : string;
  fontName : string;
  fontSize : Z;
  leading : Z;
  textColor : option string;
  spaceBefore : option Z;
  spaceAfter : option Z
}.

Record SimpleDocTemplate : Type := {
  doc_filename : str;
  pagesize : dim * dim;
  rightMargin : Z;
  leftMargin : Z;
  topMargin : Z;
  bottomMargin : Z
}.

Definition doc_width (doc : SimpleDocTemplate) : dim :=
  frame_width (pagesize doc) (leftMargin doc) (rightMargin doc).

Inductive table_command : Type :=
  | LINEBELOW (start stop : Z * Z) (weight : Z) (color : string).

Inductive flowable : Type :=
  | Paragraph (text : str) (style : ParagraphStyle)
  | Table (data : list (list str)) (colWidths : list dim)
          (style : list table_command)
  | Spacer (width height : Z).

Definition title_style : ParagraphStyle :=
  {| style_name := "title"; parent := "Heading1";
     fontName := "Helvetica-Bold"; fontSize := 20; leading := 24;
     textColor := Some "#1f5a8a"; spaceBefore := None;
     spaceAfter := Some 10%Z |}.

Definition heading_style : ParagraphStyle :=
  {| style_name := "heading"; parent := "Heading2";
     fontName := "Helvetica-Bold"; fontSize := 13; leading := 16;
     textColor := Some "#2b6fb3"; spaceBefore := Some 10%Z;
     spaceAfter := Some 4%Z |}.

Definition normal : ParagraphStyle :=
  {| style_name := "normal"; parent := "Normal";
     fontName := "Helvetica"; fontSize := 11; leading := 14;
     textColor := None; spaceBefore := None; spaceAfter := None |}.

(** ** The profile record ([data]) and the form it is read from *)

Record profile : Type := {
  name : str;
  email : str;
  phone : str;
  linkedin : str;
  github : str;
  website : str;
  about : str;
  skills : list str;
  education : str;
  projects : list str;
  certifications : list str;
  achievements : list str;
  interests : list str
}.

(** [request.form.get(key, default)] with the empty string as default. *)
Definition form_get (form : gmap string str) (key : string) : str :=
  default empty_str (form !! key).

Definition build_data (form : gmap string str) : profile :=
  {| name := strip (form_get form "name");
     email := strip (form_get form "email");
     phone := strip (form_get form "phone");
     linkedin := strip (form_get form "linkedin");
     github := strip (form_get form "github");
     website := strip (form_get form "website");
     about := strip (form_get form "about");
     skills := make_list (Some (form_get form "skills")) true;
     education := strip (form_get form "education");
     projects := make_list (Some (form_get form "projects")) true;
     certifications :=
       make_list (Some (form_get form "certifications")) true;
     achievements := make_list (Some (form_get form "achievements")) true;
     interests := make_list (Some (form_get form "interests")) true |}.

(** [sep.join(parts)] *)
Fixpoint str_join (sep : str) (parts : list str) : str :=
  match parts with
  | [] => []
  | [p] => p
  | p :: rest => p ++ sep ++ str_join sep rest
  end.

(** The five [if data[...]: contact_parts.append(...)] statements. *)
Definition contact_parts (data : profile) : list str :=
  let parts := [] in
  let parts :=
    if truthy (email data) then parts ++ [py "Email: " ++ email data]
    else parts in
  let parts :=
    if truthy (phone data) then parts ++ [py "Phone: " ++ phone data]
    else parts in
  let parts :=
    if truthy (linkedin data)
    then parts ++ [py "LinkedIn: " ++ linkedin data]
    else parts in
  let parts :=
    if truthy (github data) then parts ++ [py "GitHub: " ++ github data]
    else parts in
  let parts :=
    if truthy (website data)
    then parts ++ [py "Website: " ++ website data]
    else parts in
  parts.

Definition divider (doc : SimpleDocTemplate) : flowable :=
  Table [[empty_str]] [doc_width doc]
        [LINEBELOW (0, 0)%Z (-1, -1)%Z 1 "#cccccc"].

(** [if entries: for e in entries: elements.append(bullet) else:
    elements.append(dash)] *)
Definition append_entries (entries : list str) (elements : list flowable)
  : list flowable :=
  match entries with
  | [] => elements ++ [Paragraph (py "-") normal]
  | _ :: _ =>
      fold_left
        (fun elements e =>
           elements ++ [Paragraph ([BULLET; SPACE] ++ e) normal])
        entries elements
  end.

(** The body of [generate] between [elements = []] and [doc.build]. *)
Definition assemble (doc : SimpleDocTemplate) (data : profile)
  : list flowable :=
  let elements := [] in
  let elements :=
    elements ++ [Paragraph (py_or (name data) (py "Your Name")) title_style]
  in
  let parts := contact_parts data in
  let elements :=
    match parts with
    | [] => elements
    | _ :: _ => elements ++ [Paragraph (str_join (py " | ") parts) normal]
    end in
  let elements := elements ++ [divider doc] in
  let elements := elements ++ [Spacer 1 8] in
  let elements := elements ++ [Paragraph (py "About Me") heading_style] in
  let elements :=
    elements ++ [Paragraph (py_or (about data) (py "-")) normal] in
  let elements := elements ++ [Paragraph (py "Skills") heading_style] in
  let elements := append_entries (skills data) elements in
  let elements := elements ++ [Paragraph (py "Education") heading_style] in
  let elements :=
    elements ++ [Paragraph (py_or (education data) (py "-")) normal] in
  let elements := elements ++ [Paragraph (py "Projects") heading_style] in
  let elements := append_entries (projects data) elements in
  let elements :=
    elements ++ [Paragraph (py "Certifications") heading_style] in
  let elements := append_entries (certifications data) elements in
  let elements :=
    elements ++ [Paragraph (py "Achievements") heading_style] in
  let elements := append_entries (achievements data) elements in
  let elements := elements ++ [Paragraph (py "Interests") heading_style] in
  let elements := append_entries (interests data) elements in
  elements.

(** ** The handlers

    The renderer behind [doc.build] is the layout library: it turns the
    template and the flowables into the bytes of a PDF, or raises.  It is
    not part of the program, and what else it reads when it runs (the
    clock, its own configuration) is its [ambient] input, one per call. *)

Variable ambient : Type.

Variable render :
  ambient -> SimpleDocTemplate -> list flowable -> option (list byte).

(** [doc.build(elements)] *)
Definition doc_build (env : ambient) (doc : SimpleDocTemplate)
           (elements : list flowable) : M unit :=
  match render env doc elements with
  | Some content => write_file (doc_filename doc) content
  | None => raise RenderError
  end.

Inductive response : Type :=
  | render_template (template : string) (data : profile)
                    (download_link : str)
  | text_response (body : str) (status : Z)
  | send_file (path : str) (as_attachment : bool) (body : list byte).

Definition pdf_filename (data : profile) : str :=
  slugify (py_or (name data) (py "portfolio")) ++ py ".pdf".

Definition generate (env : ambient) (form : gmap string str) : M response :=
  let data := build_data form in
  let filename := pdf_filename data in
  let pdf_path := os_path_join OUTPUT_DIR filename in
  let doc :=
    {| doc_filename := pdf_path; pagesize := A4; rightMargin := 36;
       leftMargin := 36; topMargin := 36; bottomMargin := 36 |} in
  let elements := assemble doc data in
  let* _ := doc_build env doc elements in
  ret (render_template "portfolio.html" data filename).

Definition download (filename : str) : M response :=
  let filepath := os_path_join OUTPUT_DIR filename in
  let* found := os_path_exists filepath in
  if negb found then ret (text_response (py "File not found.") 404)
  else
    let* body := read_file filepath in
    ret (send_file filepath true body).

(** ** The specification's wording

    The definitions below follow the sentences of the specification, not
    the code; the theorems compare the two. *)

Definition starts_with_space (s : str) : bool :=
  match s with
  | [] => false
  | c :: _ => isspace c
  end.

Definition ends_with_space (s : str) : bool := starts_with_space (rev s).

(** "Split on a separator": a new item starts after every separator. *)
Fixpoint split_at (sep : char -> bool) (s : str) : list str :=
  match s with
  | [] => [[]]
  | c :: s' =>
      if sep c then [] :: split_at sep s'
      else match split_at sep s' with
           | [] => [[c]]
           | w :: ws => (c :: w) :: ws
           end
  end.

(** "Consecutive separators collapse to a single split point": of a run of
    separators only the first is kept. *)
Fixpoint collapse_runs (sep : char -> bool) (in_run : bool) (s : str)
  : str :=
  match s with
  | [] => []
  | c :: s' =>
      if sep c
      then if in_run then collapse_runs sep true s'
           else c :: collapse_runs sep true s'
      else c :: collapse_runs sep false s'
  end.

Definition comma_or_line_break (c : char) : bool :=
  (c =? COMMA) || (c =? LF).

Definition line_break (c : char) : bool := c =? LF.

(** Section 4.1 of the specification. *)
Definition normalize_spec (rawText : str) (preferLineSplit : bool)
  : list str :=
  let t := strip (List.filter (fun c => negb (c =? CR)) rawText) in
  let items :=
    if preferLineSplit && existsb line_break t
    then map strip (split_at line_break t)
    else map strip
           (split_at comma_or_line_break
              (collapse_runs comma_or_line_break false t)) in
  List.filter
    (fun p => negb (length p =? 0)%nat && negb (length p =? 1)%nat) items.

(** Section 4.2: the characters a token may keep. *)
Definition token_char (c : char) : bool :=
  re_word c || (c =? HYPHEN) || (c =? UNDERSCORE) || (c =? PERIOD).

Definition sanitize_spec (displayName : str) : str :=
  let t := strip displayName in
  let t := map (fun c => if c =? SPACE then UNDERSCORE else c) t in
  let t := List.filter token_char t in
  match t with
  | [] => py "portfolio"
  | _ :: _ => t
  end.

(** Section 4.3: the contact line and the table of sections. *)
Definition contact_fields (data : profile) : list (str * str) :=
  [ (py "Email: ", email data); (py "Phone: ", phone data);
    (py "LinkedIn: ", linkedin data); (py "GitHub: ", github data);
    (py "Website: ", website data) ].

Definition present_contacts (data : profile) : list str :=
  map (fun lv => fst lv ++ snd lv)
      (List.filter (fun lv => truthy (snd lv)) (contact_fields data)).

Definition contact_block (data : profile) : list flowable :=
  match present_contacts data with
  | [] => []
  | _ :: _ =>
      [Paragraph (str_join (py " | ") (present_contacts data)) normal]
  end.

Inductive section_body : Type :=
  | Scalar (text : str)
  | Entries (entries : list str).

Definition sections (data : profile) : list (str * section_body) :=
  [ (py "About Me", Scalar (about data));
    (py "Skills", Entries (skills data));
    (py "Education", Scalar (education data));
    (py "Projects", Entries (projects data));
    (py "Certifications", Entries (certifications data));
    (py "Achievements", Entries (achievements data));
    (py "Interests", Entries (interests data)) ].

Definition placeholder : flowable := Paragraph (py "-") normal.

Definition bullet_item (e : str) : flowable :=
  Paragraph (BULLET :: SPACE :: e) normal.

Definition section_blocks (sec : str * section_body) : list flowable :=
  Paragraph (fst sec) heading_style ::
  match snd sec with
  | Scalar [] => [placeholder]
  | Scalar text => [Paragraph text normal]
  | Entries [] => [placeholder]
  | Entries entries => map bullet_item entries
  end.

(** The fixed assembly order.  The divider of the code is a rule followed
    by a spacer of fixed height; the two stand together here. *)
Definition assemble_spec (doc : SimpleDocTemplate) (data : profile)
  : list flowable :=
  Paragraph (match name data with [] => py "Your Name" | n => n end)
            title_style
  :: contact_block data
  ++ [divider doc; Spacer 1 8]
  ++ flat_map section_blocks (sections data).

(** The texts of the section headings of a block sequence, in order. *)
Definition section_headings (elements : list flowable) : list str :=
  flat_map
    (fun f =>
       match f with
       | Paragraph text style =>
           if String.eqb (style_name style) "heading" then [text] else []
       | _ => []
       end)
    elements.

(** A block sequence without its spacers. *)
Definition is_spacer (f : flowable) : bool :=
  match f with
  | Spacer _ _ => true
  | _ => false
  end.

Definition content_blocks (elements : list flowable) : list flowable :=
  List.filter (fun f => negb (is_spacer f)) elements.

Definition section_titles : list str :=
  [ py "About Me"; py "Skills"; py "Education"; py "Projects";
    py "Certifications"; py "Achievements"; py "Interests" ].

(** The path [generate] writes to for a form. *)
Definition generate_path (form : gmap string str) : str :=
  os_path_join OUTPUT_DIR (pdf_filename (build_data form)).

(** The document template [generate] builds for a form. *)
Definition generate_doc (form : gmap string str) : SimpleDocTemplate :=
  {| doc_filename := generate_path form; pagesize := A4; rightMargin := 36;
     leftMargin := 36; topMargin := 36; bottomMargin := 36 |}.

(** A renderer to run [generate] with: the text of each paragraph on a line
    of its own (code points modulo 256), an empty line for any other block;
    it fails on a paragraph that holds a "<", as a renderer that reads
    markup in the text may. *)
Definition byte_of_char (c : char) : byte :=
  match Byte.of_N (c mod 256) with
  | Some b => b
  | None => x00
  end.

Definition plain_line (f : flowable) : option (list byte) :=
  match f with
  | Paragraph text _ =>
      if existsb (N.eqb 60) text then None
      else Some (map byte_of_char text ++ [x0a])
  | _ => Some [x0a]
  end.

Fixpoint plain_lines (elements : list flowable) : option (list byte) :=
  match elements with
  | [] => Some []
  | f :: rest =>
      match plain_line f, plain_lines rest with
      | Some l, Some ls => Some (l ++ ls)
      | _, _ => None
      end
  end.

Definition plain_render (env : ambient) (doc : SimpleDocTemplate)
           (elements : list flowable) : option (list byte) :=
  plain_lines elements.

(** A renderer that stamps what it writes, as a layout library does with the
    creation time of the document: the first byte comes from its ambient
    input, the rest is the plain rendering. *)
Definition stamped_render (stamp : ambient -> byte) (env : ambient)
           (doc : SimpleDocTemplate) (elements : list flowable)
  : option (list byte) :=
  match plain_lines elements with
  | Some body => Some (stamp env :: body)
  | None => None
  end.

(** The alphanumeric characters of the Latin-1 supplement (U+0080 to
    U+00FF), a finite part of the Unicode table to run the functions on. *)
Definition latin1_alnum (c : char) : bool :=
  (c =? 170) || ((178 <=? c) && (c <=? 179)) || (c =? 181)
  || ((185 <=? c) && (c <=? 186)) || ((188 <=? c) && (c <=? 190))
  || ((192 <=? c) && (c <=? 214)) || ((216 <=? c) && (c <=? 246))
  || ((248 <=? c) && (c <=? 255)).

(** ** Shapes of texts and entries, for the properties of the helpers *)

(** No white space at either end. *)
Definition clean_text (s : str) : Prop :=
  starts_with_space s = false /\ ends_with_space s = false.

(** What [make_list] lets through: two characters or more, trimmed. *)
Definition clean_entry (p : str) : Prop :=
  (2 <= length p)%nat /\ clean_text p.

(** A character that is neither a carriage return nor a line break, and one
    that is not a comma either. *)
Definition line_char (c : char) : bool :=
  negb ((c =? LF) || (c =? CR)).

Definition plain_char (c : char) : bool :=
  negb (c =? COMMA) && line_char c.

(** White space that stays on the line. *)
Definition inline_space (c : char) : bool := isspace c && line_char c.

(** An entry as a user types it in a line-separated list, and in a
    comma-separated list. *)
Definition line_entry (p : str) : bool :=
  (1 <? length p)%nat && negb (starts_with_space p)
  && negb (ends_with_space p) && forallb line_char p.

Definition plain_entry (p : str) : bool :=
  (1 <? length p)%nat && negb (starts_with_space p)
  && negb (ends_with_space p) && forallb plain_char p.

(** The number of characters of all items together. *)
Definition total_length (items : list str) : nat :=
  list_sum (map (@length N) items).

(** Every value of a form between [l] and [r]. *)
Definition pad_fields (l r : str) (form : gmap string str)
  : gmap string str :=
  (fun v => l ++ v ++ r) <$> form.

(** The number of blocks a list section puts under its heading. *)
Definition entries_blocks (entries : list str) : nat :=
  match entries with
  | [] => 1%nat
  | _ :: _ => length entries
  end.

(** The invariant of the profile record: scalar fields are trimmed, list
    fields hold trimmed entries of two characters or more. *)
Definition profile_invariant (data : profile) : Prop :=
  Forall clean_text
         [name data; email data; phone data; linkedin data; github data;
          website data; about data; education data]
  /\ Forall (Forall clean_entry)
            [skills data; projects data; certifications data;
             achievements data; interests data].

(** All entries of the five list sections. *)
Definition all_entries (data : profile) : list str :=
  skills data ++ projects data ++ certifications data
  ++ achievements data ++ interests data.

(** An entry of a comma-separated list of any length but zero. *)
Definition typed_entry (p : str) : bool :=
  truthy p && negb (starts_with_space p) && negb (ends_with_space p)
  && forallb plain_char p.

(** What the renderer returns for a form, or no bytes when it raises. *)
Definition rendered_or_empty (env : ambient) (form : gmap string str)
  : list byte :=
  default [] (render env (generate_doc form)
                (assemble (generate_doc form) (build_data form))).

(** ** Properties of the string operations *)

Ltac char_arith :=
  unfold isspace, ascii_alnum, HYPHEN, PERIOD, UNDERSCORE, SPACE, COMMA,
    LF, CR in *;
  repeat match goal with
         | H : _ && _ = true |- _ => apply andb_true_iff in H; destruct H
         | H : _ || _ = true |- _ => apply orb_true_iff in H; destruct H
         | H : _ || _ = false |- _ => apply orb_false_iff in H; destruct H
         | H : (_ <=? _) = true |- _ => apply N.leb_le in H
         | H : (_ <? _) = true |- _ => apply N.ltb_lt in H
         | H : (_ <? _) = false |- _ => apply N.ltb_ge in H
         | H : (_ =? _) = true |- _ => apply N.eqb_eq in H
         | H : (_ =? _) = false |- _ => apply N.eqb_neq in H
         end.

Lemma lstrip_suffix (s : str) :
  exists l, s = l ++ lstrip s /\ forallb isspace l = true.
Proof.
  induction s as [|c s [l [Hl Hsp]]]; simpl.
  - exists []. split; reflexivity.
  - destruct (isspace c) eqn:Hc.
    + exists (c :: l). simpl. rewrite Hc, Hsp. split; [congruence|reflexivity].
    + exists []. split; reflexivity.
Qed.

Lemma lstrip_no_leading (s : str) : starts_with_space (lstrip s) = false.
Proof.
  induction s as [|c s IH]; simpl; [reflexivity|].
  destruct (isspace c) eqn:Hc; [exact IH|]. simpl. exact Hc.
Qed.

Lemma lstrip_fixed (s : str) : starts_with_space s = false -> lstrip s = s.
Proof. destruct s as [|c s]; simpl; intros H; [reflexivity|now rewrite H]. Qed.

Lemma rstrip_prefix (s : str) :
  exists r, s = rstrip s ++ r /\ forallb isspace r = true.
Proof.
  unfold rstrip. destruct (lstrip_suffix (rev s)) as [l [Hl Hsp]].
  exists (rev l). split.
  - rewrite <- rev_app_distr, <- Hl. symmetry. apply rev_involutive.
  - rewrite forallb_forall in *. intros x Hx. apply Hsp.
    now apply in_rev.
Qed.

Lemma rstrip_no_trailing (s : str) : ends_with_space (rstrip s) = false.
Proof.
  unfold ends_with_space, rstrip. rewrite rev_involutive.
  apply lstrip_no_leading.
Qed.

Lemma rstrip_keeps_head (s : str) :
  starts_with_space s = false -> starts_with_space (rstrip s) = false.
Proof.
  intros H. destruct (rstrip_prefix s) as [r [Hr _]].
  destruct (rstrip s) as [|c t] eqn:E; [reflexivity|].
  rewrite Hr in H. exact H.
Qed.

Lemma strip_clean (s : str) :
  starts_with_space (strip s) = false /\ ends_with_space (strip s) = false.
Proof.
  unfold strip. split.
  - apply rstrip_keeps_head, lstrip_no_leading.
  - apply rstrip_no_trailing.
Qed.

(** [strip] removes white space only, and only at the two ends. *)
Lemma strip_decompose (s : str) :
  exists l r,
    s = l ++ strip s ++ r
    /\ forallb isspace l = true /\ forallb isspace r = true.
Proof.
  destruct (lstrip_suffix s) as [l [Hl Hsl]].
  destruct (rstrip_prefix (lstrip s)) as [r [Hr Hsr]].
  exists l, r. unfold strip. rewrite <- Hr. auto.
Qed.

Lemma strip_fixed (s : str) :
  starts_with_space s = false -> ends_with_space s = false -> strip s = s.
Proof.
  intros H1 H2. unfold strip, rstrip. rewrite (lstrip_fixed s H1).
  rewrite (lstrip_fixed (rev s) H2). apply rev_involutive.
Qed.

Lemma str_replace_delete (old : char) (s : str) :
  str_replace old [] s = List.filter (fun c => negb (c =? old)) s.
Proof.
  induction s as [|c s IH]; simpl; [reflexivity|].
  destruct (c =? old); simpl; now rewrite IH.
Qed.

Lemma str_replace_char (old new : char) (s : str) :
  str_replace old [new] s = map (fun c => if c =? old then new else c) s.
Proof.
  induction s as [|c s IH]; simpl; [reflexivity|].
  destruct (c =? old); simpl; now rewrite IH.
Qed.

Lemma str_split_split_at (sep : char) (s : str) :
  str_split sep s = split_at (fun c => c =? sep) s.
Proof.
  induction s as [|c s IH]; simpl; [reflexivity|]. now rewrite IH.
Qed.

Lemma split_at_ext (p q : char -> bool) (s : str) :
  (forall c, p c = q c) -> split_at p s = split_at q s.
Proof.
  intros E. induction s as [|c s IH]; simpl; [reflexivity|].
  now rewrite E, IH.
Qed.

Lemma collapse_runs_ext (p q : char -> bool) (b : bool) (s : str) :
  (forall c, p c = q c) -> collapse_runs p b s = collapse_runs q b s.
Proof.
  intros E. revert b. induction s as [|c s IH]; intros b; simpl;
    [reflexivity|].
  now rewrite E, !IH.
Qed.

(** *** The [re.split] loop against the collapsed split *)

Lemma re_split_loop_skip (n : nat) (cs : charset) (c : char) (s : str) :
  charset_match cs c = false ->
  re_split_loop (S n) cs (c :: s) =
  match re_split_loop (S n) cs s with
  | [] => [[c]]
  | w :: ws => (c :: w) :: ws
  end.
Proof.
  intros Hc. simpl. rewrite Hc.
  destruct (re_search_plus cs s) as [[i j]|]; reflexivity.
Qed.

Lemma re_split_loop_match (n : nat) (cs : charset) (c : char) (s : str) :
  charset_match cs c = true ->
  re_split_loop (S n) cs (c :: s) =
  [] :: re_split_loop n cs (drop (match_end cs s) s).
Proof. intros Hc. simpl. now rewrite Hc. Qed.

Lemma collapse_in_run (cs : charset) (s : str) :
  split_at (charset_match cs) (collapse_runs (charset_match cs) true s) =
  split_at (charset_match cs)
    (collapse_runs (charset_match cs) false (drop (match_end cs s) s)).
Proof.
  induction s as [|c s IH]; [reflexivity|].
  cbn [match_end collapse_runs].
  destruct (charset_match cs c) eqn:Hc.
  - cbn [drop]. exact IH.
  - cbn [drop collapse_runs]. now rewrite Hc.
Qed.

Lemma re_split_loop_collapse (cs : charset) (n : nat) :
  forall s : str,
    (length s <= n)%nat ->
    re_split_loop n cs s =
    split_at (charset_match cs) (collapse_runs (charset_match cs) false s).
Proof.
  induction n as [|n IHn].
  - intros [|c s] Hlen; [reflexivity|simpl in Hlen; lia].
  - induction s as [|c s IHs]; intros Hlen; [reflexivity|].
    simpl in Hlen.
    destruct (charset_match cs c) eqn:Hc.
    + rewrite re_split_loop_match by exact Hc.
      rewrite IHn by (rewrite length_drop; lia).
      cbn [collapse_runs]. rewrite Hc. cbn [split_at]. rewrite Hc.
      now rewrite collapse_in_run.
    + rewrite re_split_loop_skip by exact Hc.
      rewrite IHs by lia.
      cbn [collapse_runs]. rewrite Hc. cbn [split_at]. now rewrite Hc.
Qed.

Lemma re_split_plus_collapse (cs : charset) (s : str) :
  re_split_plus cs s =
  split_at (charset_match cs) (collapse_runs (charset_match cs) false s).
Proof. apply re_split_loop_collapse. reflexivity. Qed.

Lemma sep_pattern_match (c : char) :
  charset_match sep_pattern c = comma_or_line_break c.
Proof.
  unfold charset_match, sep_pattern, comma_or_line_break.
  cbn [negated items existsb item_match].
  now rewrite orb_false_r.
Qed.

Lemma slug_pattern_match (c : char) :
  charset_match slug_pattern c = negb (token_char c).
Proof.
  unfold charset_match, slug_pattern, token_char.
  cbn [negated items existsb item_match]. unfold re_word.
  destruct (isalnum c), (c =? HYPHEN), (c =? UNDERSCORE), (c =? PERIOD);
    reflexivity.
Qed.

Lemma re_sub_slug (s : str) :
  re_sub slug_pattern [] s = List.filter token_char s.
Proof.
  induction s as [|c s IH]; [reflexivity|].
  cbn [re_sub List.filter]. rewrite slug_pattern_match.
  destruct (token_char c); simpl; now rewrite IH.
Qed.

Lemma slugify_sanitize (s : str) : slugify s = sanitize_spec s.
Proof.
  unfold slugify, sanitize_spec.
  change (py "_") with [UNDERSCORE]. unfold empty_str.
  rewrite str_replace_char, re_sub_slug. unfold py_or.
  now destruct (List.filter _ _).
Qed.

Lemma token_char_not_space (c : char) :
  (forall x, isspace x = true -> unicode_alnum x = false) ->
  token_char c = true -> isspace c = false.
Proof.
  intros Huni Htok. destruct (isspace c) eqn:Hsp; [|reflexivity].
  specialize (Huni c Hsp).
  unfold token_char, re_word, isalnum in Htok. rewrite Huni in Htok.
  destruct (c <? 128) eqn:Hlt; char_arith; try discriminate; lia.
Qed.

Lemma keep_item_length (p : str) :
  truthy p && (1 <? length p)%nat = true <-> (2 <= length p)%nat.
Proof.
  destruct p as [|c [|c' p]]; simpl; split; intros H;
    try discriminate; try lia; reflexivity.
Qed.

Lemma keep_item_spec (p : str) :
  truthy p && (1 <? length p)%nat =
  negb (length p =? 0)%nat && negb (length p =? 1)%nat.
Proof. destruct p as [|c [|c' p]]; reflexivity. Qed.

Lemma make_list_parts_stripped (text : str) (b : bool) (p : str) :
  In p (make_list_parts text b) -> exists x, p = strip x.
Proof.
  unfold make_list_parts.
  destruct (b && _); intros Hin; apply in_map_iff in Hin as [x [Hx _]];
    eauto.
Qed.

(** C1: every item returned by [make_list] has at least two characters and
    neither starts nor ends with white space, whatever the text and the
    flag; the result is the list of parts without those that are empty or
    one character long. *)
Theorem make_list_items_clean (t : option str) (preferLineSplit : bool) :
  Forall (fun item =>
            (2 <= length item)%nat
            /\ starts_with_space item = false
            /\ ends_with_space item = false)
         (make_list t preferLineSplit)
  /\ forall (text item : str),
       In item (make_list (Some text) preferLineSplit) <->
       In item (make_list_parts text preferLineSplit)
       /\ length item <> 0%nat /\ length item <> 1%nat.
Proof.
  split.
  - apply List.Forall_forall. intros p Hin.
    destruct t as [[|c s]|]; try contradiction.
    cbn [make_list] in Hin. apply filter_In in Hin as [Hin Hkeep].
    apply make_list_parts_stripped in Hin as [x ->].
    split; [now apply keep_item_length|apply strip_clean].
  - intros text item. destruct text as [|c s].
    + split; [contradiction|]. intros [Hin [H0 _]]. exfalso.
      destruct preferLineSplit; simpl in Hin;
        destruct Hin as [<-|[]]; now apply H0.
    + cbn [make_list]. rewrite filter_In, keep_item_length.
      split; intros [Hin Hlen]; (split; [exact Hin|lia]).
Qed.

Lemma str_contains_line_break (s : str) :
  str_contains LF s = existsb line_break s.
Proof.
  unfold str_contains, line_break.
  induction s as [|c s IH]; simpl; [reflexivity|].
  now rewrite IH, N.eqb_sym.
Qed.

(** C2: on every text [make_list] is the normalisation of section 4.1:
    carriage returns removed and the text trimmed, then one trimmed item
    per line when the flag is set and a line break is left, and otherwise
    one trimmed item per stretch between runs of commas and line breaks,
    a run counting as one split point; empty and one-character items are
    dropped. *)
Theorem make_list_normalizes (t : str) (preferLineSplit : bool) :
  make_list (Some t) preferLineSplit = normalize_spec t preferLineSplit.
Proof.
  destruct t as [|c s]; [now destruct preferLineSplit|].
  cbn [make_list]. unfold make_list_parts, normalize_spec.
  unfold empty_str. rewrite str_replace_delete.
  set (text := strip _).
  rewrite (filter_ext _ _ keep_item_spec).
  f_equal. rewrite str_contains_line_break.
  destruct (preferLineSplit && existsb line_break text).
  - now rewrite str_split_split_at.
  - rewrite re_split_plus_collapse.
    rewrite (split_at_ext _ _ _ sep_pattern_match).
    now rewrite (collapse_runs_ext _ _ _ _ sep_pattern_match).
Qed.

Lemma sanitize_fixed (r : str) :
  (forall x, isspace x = true -> unicode_alnum x = false) ->
  Forall (fun c => token_char c = true) r ->
  r <> [] ->
  sanitize_spec r = r.
Proof.
  intros Huni Hall Hne. rewrite List.Forall_forall in Hall.
  assert (Hns : forall c, In c r -> isspace c = false)
    by (intros c Hc; apply token_char_not_space; auto).
  unfold sanitize_spec. rewrite strip_fixed.
  - rewrite (map_ext_in _ (fun c => c)), map_id.
    + rewrite (forallb_filter_id token_char r).
      * destruct r; [contradiction|reflexivity].
      * apply forallb_forall. exact Hall.
    + intros c Hc. destruct (c =? SPACE) eqn:E; [|reflexivity].
      apply N.eqb_eq in E. subst c. now specialize (Hns _ Hc).
  - destruct r as [|c r']; [reflexivity|]. apply Hns. now left.
  - unfold ends_with_space. destruct (rev r) as [|c r'] eqn:E;
      [reflexivity|].
    apply Hns. apply in_rev. rewrite E. now left.
Qed.

Lemma sanitize_spec_token (s : str) :
  Forall (fun c => token_char c = true) (sanitize_spec s)
  /\ sanitize_spec s <> [].
Proof.
  unfold sanitize_spec.
  set (r := List.filter token_char _).
  assert (Hr : Forall (fun c => token_char c = true) r).
  { apply List.Forall_forall. intros c Hc. now apply filter_In in Hc. }
  destruct r as [|c r'].
  - split; [|discriminate].
    apply List.Forall_forall. intros c Hc. vm_compute in Hc.
    repeat (destruct Hc as [<-|Hc]; [reflexivity|]). contradiction.
  - split; [exact Hr|discriminate].
Qed.

(** C4: [slugify] trims the name, turns each space into an underscore,
    drops every character that is not a word character, hyphen, underscore
    or period, and answers "portfolio" when nothing is left; the token it
    returns is never empty and holds permitted characters only, and
    "  Jane Doe!! " becomes "Jane_Doe". *)
Theorem slugify_sanitizes (displayName : str) :
  slugify displayName = sanitize_spec displayName
  /\ Forall (fun c => token_char c = true) (slugify displayName)
  /\ slugify displayName <> []
  /\ slugify (py "  Jane Doe!! ") = py "Jane_Doe".
Proof.
  rewrite slugify_sanitize.
  destruct (sanitize_spec_token displayName) as [Htok Hne].
  split; [reflexivity|]. split; [exact Htok|]. split; [exact Hne|].
  reflexivity.
Qed.

(** C8: absent or empty text gives the empty list, and the function
    returns a list on every input: the splitting loop never runs short of
    rounds, a larger budget gives the same parts. *)
Theorem make_list_empty_input (preferLineSplit : bool) :
  make_list None preferLineSplit = []
  /\ make_list (Some (empty_str)) preferLineSplit = []
  /\ (forall t, exists items, make_list t preferLineSplit = items)
  /\ (forall (text : str) (extra : nat),
        re_split_loop (length text + extra) sep_pattern text =
        re_split_plus sep_pattern text).
Proof.
  repeat split; eauto.
  intros text extra. rewrite re_split_plus_collapse.
  apply re_split_loop_collapse. lia.
Qed.

(** C9: "Data Analytics, Web Development" without the line-split flag
    gives the two items "Data Analytics" and "Web Development". *)
Theorem make_list_comma_example :
  make_list (Some (py "Data Analytics, Web Development")) false =
  [py "Data Analytics"; py "Web Development"].
Proof. reflexivity. Qed.

(** C10: [slugify] is idempotent, given that the Unicode database marks
    no white-space character as alphanumeric. *)
Theorem slugify_idempotent (s : str) :
  (forall x, isspace x = true -> unicode_alnum x = false) ->
  slugify (slugify s) = slugify s.
Proof.
  intros Huni. rewrite !slugify_sanitize.
  destruct (sanitize_spec_token s) as [Htok Hne].
  now apply sanitize_fixed.
Qed.

(** ** The assembled block sequence *)

Lemma contact_parts_present (data : profile) :
  contact_parts data = present_contacts data.
Proof.
  unfold contact_parts, present_contacts, contact_fields.
  cbn [List.filter snd fst].
  destruct (truthy (email data)), (truthy (phone data)),
    (truthy (linkedin data)), (truthy (github data)),
    (truthy (website data)); reflexivity.
Qed.

Lemma fold_append_map {A B} (f : A -> B) (l : list A) (acc : list B) :
  fold_left (fun acc x => acc ++ [f x]) l acc = acc ++ map f l.
Proof.
  revert acc. induction l as [|x l IH]; intros acc; simpl.
  - now rewrite app_nil_r.
  - rewrite IH, <- app_assoc. reflexivity.
Qed.

Lemma append_entries_blocks (title : str) (entries : list str)
      (elements : list flowable) :
  append_entries entries (elements ++ [Paragraph title heading_style]) =
  elements ++ section_blocks (title, Entries entries).
Proof.
  unfold append_entries, section_blocks. cbn [fst snd].
  destruct entries as [|e entries].
  - rewrite <- app_assoc. reflexivity.
  - rewrite (fold_append_map bullet_item (e :: entries)).
    rewrite <- app_assoc. reflexivity.
Qed.

Lemma scalar_blocks (title text : str) (elements : list flowable) :
  (elements ++ [Paragraph title heading_style])
    ++ [Paragraph (py_or text (py "-")) normal] =
  elements ++ section_blocks (title, Scalar text).
Proof.
  unfold section_blocks. cbn [fst snd]. rewrite <- app_assoc.
  destruct text; reflexivity.
Qed.

Lemma assemble_layout (doc : SimpleDocTemplate) (data : profile) :
  assemble doc data = assemble_spec doc data.
Proof.
  unfold assemble, assemble_spec, sections.
  rewrite !append_entries_blocks, !scalar_blocks.
  rewrite contact_parts_present. unfold contact_block.
  cbn [flat_map]. rewrite app_nil_r.
  destruct (name data), (present_contacts data); cbn [app py_or truthy];
    rewrite <- ?app_assoc; reflexivity.
Qed.

Lemma section_headings_app (l1 l2 : list flowable) :
  section_headings (l1 ++ l2) = section_headings l1 ++ section_headings l2.
Proof. apply flat_map_app. Qed.

Lemma section_headings_bullets (entries : list str) :
  section_headings (map bullet_item entries) = [].
Proof. induction entries as [|e l IH]; [reflexivity|exact IH]. Qed.

Lemma section_headings_blocks (sec : str * section_body) :
  section_headings (section_blocks sec) = [fst sec].
Proof.
  destruct sec as [title [text|entries]]; unfold section_blocks;
    cbn [fst snd].
  - destruct text; reflexivity.
  - destruct entries as [|e l]; [reflexivity|].
    change (section_headings (Paragraph title heading_style
                                :: map bullet_item (e :: l)))
      with (title :: section_headings (map bullet_item (e :: l))).
    now rewrite section_headings_bullets.
Qed.

Lemma section_headings_spec (doc : SimpleDocTemplate) (data : profile) :
  section_headings (assemble_spec doc data) = section_titles.
Proof.
  unfold assemble_spec.
  change (Paragraph ?t title_style :: ?l) with ([Paragraph t title_style] ++ l).
  rewrite !section_headings_app.
  unfold sections. cbn [flat_map]. rewrite !section_headings_app.
  rewrite !section_headings_blocks.
  unfold contact_block. destruct (present_contacts data); reflexivity.
Qed.

Lemma section_blocks_content (sec : str * section_body) :
  content_blocks (section_blocks sec) = section_blocks sec.
Proof.
  unfold content_blocks. apply forallb_filter_id.
  destruct sec as [title [text|entries]]; unfold section_blocks;
    cbn [fst snd].
  - destruct text; reflexivity.
  - destruct entries as [|e l]; [reflexivity|].
    cbn [forallb is_spacer negb andb]. apply forallb_forall.
    intros f Hf. apply in_map_iff in Hf as [x [<- _]]. reflexivity.
Qed.

Lemma content_blocks_app (l1 l2 : list flowable) :
  content_blocks (l1 ++ l2) = content_blocks l1 ++ content_blocks l2.
Proof. apply List.filter_app. Qed.

Lemma content_blocks_spec (doc : SimpleDocTemplate) (data : profile) :
  content_blocks (assemble_spec doc data) =
  Paragraph (py_or (name data) (py "Your Name")) title_style
  :: contact_block data
  ++ divider doc :: flat_map section_blocks (sections data).
Proof.
  unfold assemble_spec, sections. cbn [flat_map].
  change (Paragraph ?t title_style :: ?l) with ([Paragraph t title_style] ++ l).
  rewrite !content_blocks_app, !section_blocks_content.
  unfold contact_block.
  destruct (name data), (present_contacts data); reflexivity.
Qed.

(** C3: the blocks are the title, the contact line when there is one, the
    divider (followed by its fixed spacer), and then the seven sections in
    their order, each a heading followed by its bullets, its text, or the
    "-" placeholder; the seven headings are there for every record, and the
    empty form gives the headings with placeholders only. *)
Theorem assemble_fixed_order (doc : SimpleDocTemplate) (data : profile) :
  assemble doc data = assemble_spec doc data
  /\ content_blocks (assemble doc data) =
     Paragraph (py_or (name data) (py "Your Name")) title_style
     :: contact_block data
     ++ divider doc :: flat_map section_blocks (sections data)
  /\ section_headings (assemble doc data) = section_titles
  /\ assemble doc data <> []
  /\ (forall form : gmap string (list N),
        about (build_data form) = strip (form_get form "about")
        /\ education (build_data form) = strip (form_get form "education"))
  /\ (forall form : gmap string (list N),
        (forall key, form_get form key = empty_str) ->
        assemble doc (build_data form) =
        [ Paragraph (py "Your Name") title_style;
          divider doc; Spacer 1 8;
          Paragraph (py "About Me") heading_style; placeholder;
          Paragraph (py "Skills") heading_style; placeholder;
          Paragraph (py "Education") heading_style; placeholder;
          Paragraph (py "Projects") heading_style; placeholder;
          Paragraph (py "Certifications") heading_style; placeholder;
          Paragraph (py "Achievements") heading_style; placeholder;
          Paragraph (py "Interests") heading_style; placeholder ])
  /\ (forall key, form_get ∅ key = empty_str).
Proof.
  rewrite assemble_layout.
  split; [reflexivity|]. split; [apply content_blocks_spec|].
  split; [apply section_headings_spec|].
  split; [discriminate|]. split; [intros form; split; reflexivity|].
  split.
  - intros form Hform. rewrite assemble_layout.
    unfold build_data. rewrite !Hform. reflexivity.
  - intros key. unfold form_get. now rewrite lookup_empty.
Qed.

(** C7: the contact line is made of the non-empty fields among email,
    phone, linkedin, github and website, in that order, each behind its
    label and joined with " | "; it sits between the title and the
    divider, and there is no such block when all five are empty. *)
Theorem contact_line_fields (doc : SimpleDocTemplate) (data : profile) :
  contact_parts data = present_contacts data
  /\ (exists rest,
        assemble doc data =
        Paragraph (py_or (name data) (py "Your Name")) title_style
        :: contact_block data ++ divider doc :: rest)
  /\ (contact_block data = [] <->
      email data = [] /\ phone data = [] /\ linkedin data = []
      /\ github data = [] /\ website data = [])
  /\ (contact_block data = [] \/
      contact_block data =
      [Paragraph (str_join (py " | ") (present_contacts data)) normal]).
Proof.
  split; [apply contact_parts_present|]. split.
  - rewrite assemble_layout. unfold assemble_spec. eexists.
    f_equal. destruct (name data); reflexivity.
  - split.
    + unfold contact_block, present_contacts, contact_fields.
      cbn [List.filter snd fst].
      destruct (email data), (phone data), (linkedin data), (github data),
        (website data); cbn [truthy map]; split;
        try discriminate; try (intros (? & ? & ? & ? & ?); discriminate);
        auto.
    + unfold contact_block. destruct (present_contacts data); auto.
Qed.

(** ** Properties of the handlers *)

Lemma generate_run (env : ambient) (form : gmap string (list N))
      (fs : gmap (list N) (list byte)) :
  generate env form fs =
  match render env (generate_doc form)
          (assemble (generate_doc form) (build_data form)) with
  | Some pdf =>
      (Returned
         (render_template "portfolio.html" (build_data form)
            (pdf_filename (build_data form))),
       <[generate_path form := pdf]> fs)
  | None => (Raised RenderError, fs)
  end.
Proof.
  unfold generate, bind, doc_build.
  fold (generate_path form). fold (generate_doc form).
  cbn [doc_filename generate_doc].
  destruct (render _ _ _); reflexivity.
Qed.

(** C5: for a file name whose path is not on storage, [download] answers
    "File not found." with status 404, sends no file, and leaves storage
    as it was. *)
Theorem download_missing_file (filename : str)
        (fs : gmap (list N) (list byte)) :
  fs !! os_path_join OUTPUT_DIR filename = None ->
  download filename fs =
  (Returned (text_response (py "File not found.") 404), fs).
Proof.
  intros Hnone. unfold download, bind, os_path_exists.
  rewrite Hnone. rewrite bool_decide_eq_false_2; [reflexivity|].
  intros [x Hx]. discriminate.
Qed.

(** C6 (amended): two calls of [generate] on the same form hand the renderer
    the same template and the same blocks and write to the same path, the
    second call replacing what the first wrote: after two successful calls
    the path holds the bytes of the second rendering.  The second call
    repeats the first (same response, same storage, same bytes) exactly
    when the renderer returns for it what it returned for the first; nothing
    in [generate] makes it do so. *)
Theorem generate_twice_overwrites (form : gmap string (list N))
        (env1 env2 : ambient) (fs : gmap (list N) (list byte)) :
  (forall env st,
      generate env form st =
      match render env (generate_doc form)
              (assemble (generate_doc form) (build_data form)) with
      | Some pdf =>
          (Returned
             (render_template "portfolio.html" (build_data form)
                (pdf_filename (build_data form))),
           <[generate_path form := pdf]> st)
      | None => (Raised RenderError, st)
      end)
  /\ (forall pdf1 pdf2,
        render env1 (generate_doc form)
               (assemble (generate_doc form) (build_data form)) = Some pdf1 ->
        render env2 (generate_doc form)
               (assemble (generate_doc form) (build_data form)) = Some pdf2 ->
        (generate env1 form fs).2 = <[generate_path form := pdf1]> fs
        /\ (generate env2 form (generate env1 form fs).2).2 =
           <[generate_path form := pdf2]> fs
        /\ (generate env2 form (generate env1 form fs).2).2
             !! generate_path form = Some pdf2)
  /\ (generate env2 form (generate env1 form fs).2 = generate env1 form fs
      <-> render env2 (generate_doc form)
                 (assemble (generate_doc form) (build_data form)) =
          render env1 (generate_doc form)
                 (assemble (generate_doc form) (build_data form))).
Proof.
  split; [intros env st; apply generate_run|]. split.
  - intros pdf1 pdf2 H1 H2. rewrite !generate_run, H1, H2. cbn [snd].
    rewrite insert_insert_eq, lookup_insert_eq. auto.
  - rewrite !generate_run.
    destruct (render env1 _ _) as [pdf1|], (render env2 _ _) as [pdf2|];
      cbn [snd]; split; intros H; try discriminate H; try reflexivity.
    + rewrite insert_insert_eq in H. injection H as H.
      apply (f_equal (fun m => m !! generate_path form)) in H.
      now rewrite !lookup_insert_eq in H.
    + injection H as ->. now rewrite insert_insert_eq.
Qed.

(** ** Further properties of [make_list] and [slugify] *)

Lemma lstrip_all_space (l : str) : forallb isspace l = true -> lstrip l = [].
Proof.
  induction l as [|c l IH]; simpl; [reflexivity|].
  intros H. apply andb_true_iff in H as [Hc Hl]. rewrite Hc. auto.
Qed.

Lemma lstrip_app_space (l s : str) :
  forallb isspace l = true -> lstrip (l ++ s) = lstrip s.
Proof.
  induction l as [|c l IH]; simpl; [reflexivity|].
  intros H. apply andb_true_iff in H as [Hc Hl]. rewrite Hc. auto.
Qed.

Lemma forallb_rev {A} (f : A -> bool) (l : list A) :
  forallb f (rev l) = forallb f l.
Proof.
  induction l as [|x l IH]; simpl; [reflexivity|].
  rewrite forallb_app, IH. simpl. rewrite andb_true_r. apply andb_comm.
Qed.

Lemma rstrip_app_space (s r : str) :
  forallb isspace r = true -> rstrip (s ++ r) = rstrip s.
Proof.
  intros H. unfold rstrip. rewrite rev_app_distr.
  rewrite lstrip_app_space; [reflexivity|]. now rewrite forallb_rev.
Qed.

Lemma lstrip_app (s r : str) :
  lstrip (s ++ r) =
  match lstrip s with
  | [] => lstrip r
  | _ :: _ => lstrip s ++ r
  end.
Proof.
  induction s as [|c s IH]; simpl; [now destruct (lstrip r)|].
  destruct (isspace c); [exact IH|reflexivity].
Qed.

Lemma strip_pad (l s r : str) :
  forallb isspace l = true -> forallb isspace r = true ->
  strip (l ++ s ++ r) = strip s.
Proof.
  intros Hl Hr. unfold strip. rewrite lstrip_app_space by exact Hl.
  rewrite lstrip_app. destruct (lstrip s) as [|c t] eqn:E.
  - now rewrite lstrip_all_space.
  - now rewrite rstrip_app_space.
Qed.

Lemma strip_all_space (s : str) : forallb isspace s = true -> strip s = [].
Proof.
  intros H. unfold strip. now rewrite lstrip_all_space.
Qed.

Lemma strip_idempotent (s : str) : strip (strip s) = strip s.
Proof. apply strip_fixed; apply strip_clean. Qed.

Lemma strip_In (s : str) (c : char) : In c (strip s) -> In c s.
Proof.
  intros H. destruct (strip_decompose s) as [l [r [E _]]].
  rewrite E. apply in_or_app. right. apply in_or_app. now left.
Qed.

Lemma strip_length (s : str) : (length (strip s) <= length s)%nat.
Proof.
  destruct (strip_decompose s) as [l [r [E _]]].
  rewrite E at 2. rewrite !length_app. lia.
Qed.

Lemma make_list_unfold (t : str) (b : bool) :
  make_list (Some t) b =
  List.filter (fun p => truthy p && (1 <? length p)%nat)
              (make_list_parts t b).
Proof. destruct t as [|c s]; [now destruct b|reflexivity]. Qed.

Lemma delete_cr_app (l t r : str) :
  str_replace CR empty_str (l ++ t ++ r) =
  str_replace CR empty_str l ++ str_replace CR empty_str t
  ++ str_replace CR empty_str r.
Proof.
  unfold empty_str. rewrite !str_replace_delete.
  now rewrite !List.filter_app.
Qed.

Lemma delete_cr_space (l : str) :
  forallb isspace l = true ->
  forallb isspace (str_replace CR empty_str l) = true.
Proof.
  unfold empty_str. rewrite str_replace_delete. intros H.
  apply forallb_forall. intros c Hc. apply filter_In in Hc as [Hc _].
  rewrite forallb_forall in H. auto.
Qed.

Lemma make_list_parts_pad (l t r : str) (b : bool) :
  forallb isspace l = true -> forallb isspace r = true ->
  make_list_parts (l ++ t ++ r) b = make_list_parts t b.
Proof.
  intros Hl Hr. unfold make_list_parts.
  rewrite delete_cr_app, strip_pad by (now apply delete_cr_space).
  reflexivity.
Qed.

(** X1: a text of white space only has no items. *)
Theorem make_list_blank_text (t : str) (prefer_newline : bool) :
  forallb isspace t = true ->
  make_list (Some t) prefer_newline = [].
Proof.
  intros H. rewrite make_list_unfold. unfold make_list_parts.
  rewrite strip_all_space by (now apply delete_cr_space).
  now destruct prefer_newline.
Qed.

(** X2: white space around the text does not change the items. *)
Theorem make_list_ignores_padding (l t r : str) (prefer_newline : bool) :
  forallb isspace l = true -> forallb isspace r = true ->
  make_list (Some (l ++ t ++ r)) prefer_newline =
  make_list (Some t) prefer_newline.
Proof.
  intros Hl Hr. rewrite !make_list_unfold.
  now rewrite make_list_parts_pad.
Qed.

(** X3: white space around a name does not change its slug. *)
Theorem slugify_ignores_padding (l s r : str) :
  forallb isspace l = true -> forallb isspace r = true ->
  slugify (l ++ s ++ r) = slugify s.
Proof.
  intros Hl Hr. unfold slugify. now rewrite strip_pad.
Qed.

Lemma split_at_pieces (p : char -> bool) (s x : str) (c : char) :
  In x (split_at p s) -> In c x -> In c s /\ p c = false.
Proof.
  revert x. induction s as [|c0 s IH]; intros x Hx Hc; simpl in Hx.
  - destruct Hx as [<-|[]]. contradiction.
  - destruct (p c0) eqn:Hp.
    + destruct Hx as [<-|Hx]; [contradiction|].
      destruct (IH x Hx Hc) as [Hin Hpc]. split; [now right|exact Hpc].
    + destruct (split_at p s) as [|w ws] eqn:E.
      * destruct Hx as [<-|[]]. destruct Hc as [<-|[]].
        split; [now left|exact Hp].
      * destruct Hx as [<-|Hx].
        -- destruct Hc as [<-|Hc]; [split; [now left|exact Hp]|].
           destruct (IH w (or_introl eq_refl) Hc) as [Hin Hpc].
           split; [now right|exact Hpc].
        -- destruct (IH x (or_intror Hx) Hc) as [Hin Hpc].
           split; [now right|exact Hpc].
Qed.

Lemma collapse_runs_In (p : char -> bool) (b : bool) (s : str) (c : char) :
  In c (collapse_runs p b s) -> In c s.
Proof.
  revert b. induction s as [|c0 s IH]; intros b; simpl; [intros []|].
  destruct (p c0); [destruct b|]; simpl; intros H;
    try (destruct H as [H|H]; [now left|]); right; eapply IH; exact H.
Qed.

Lemma collapse_runs_length (p : char -> bool) (b : bool) (s : str) :
  (length (collapse_runs p b s) <= length s)%nat.
Proof.
  revert b. induction s as [|c0 s IH]; intros b; simpl; [lia|].
  pose proof (IH true). pose proof (IH false).
  destruct (p c0); [destruct b|]; simpl; lia.
Qed.

Lemma split_at_total (p : char -> bool) (s : str) :
  (total_length (split_at p s) <= length s)%nat.
Proof.
  unfold total_length. induction s as [|c0 s IH]; simpl; [lia|].
  destruct (p c0); simpl; [lia|].
  destruct (split_at p s) as [|w ws]; simpl in *; lia.
Qed.

Lemma total_length_strip (l : list (list N)) :
  (total_length (map strip l) <= total_length l)%nat.
Proof.
  unfold total_length. induction l as [|x l IH]; simpl; [lia|].
  pose proof (strip_length x). lia.
Qed.

Lemma total_length_filter (f : list N -> bool) (l : list (list N)) :
  (total_length (List.filter f l) <= total_length l)%nat.
Proof.
  unfold total_length. induction l as [|x l IH]; simpl; [lia|].
  destruct (f x); simpl; lia.
Qed.

Lemma total_length_two (l : list (list N)) :
  Forall (fun p => (2 <= length p)%nat) l ->
  (2 * length l <= total_length l)%nat.
Proof.
  unfold total_length. induction 1 as [|x l Hx Hl IH]; simpl; lia.
Qed.

Lemma delete_cr_In (t : str) (c : char) :
  In c (str_replace CR empty_str t) -> In c t /\ c <> CR.
Proof.
  unfold empty_str. rewrite str_replace_delete. intros H.
  apply filter_In in H as [Hin Hc]. split; [exact Hin|].
  apply negb_true_iff, N.eqb_neq in Hc. exact Hc.
Qed.

Lemma delete_cr_length (t : str) :
  (length (str_replace CR empty_str t) <= length t)%nat.
Proof.
  unfold empty_str. rewrite str_replace_delete. apply filter_length_le.
Qed.

Lemma make_list_parts_chars (t : str) (b : bool) (x : str) (c : char) :
  In x (make_list_parts t b) -> In c x ->
  In c t /\ c <> CR /\ c <> LF /\ (b = false -> c <> COMMA).
Proof.
  unfold make_list_parts. set (text := strip _).
  assert (Htext : In c text -> In c t /\ c <> CR)
    by (intros H; apply delete_cr_In; eapply strip_In; exact H).
  destruct (b && str_contains LF text) eqn:Hb; intros Hx Hc;
    apply in_map_iff in Hx as [y [<- Hy]]; apply strip_In in Hc.
  - rewrite str_split_split_at in Hy.
    destruct (split_at_pieces _ _ _ _ Hy Hc) as [Hin Hlf].
    apply N.eqb_neq in Hlf. destruct (Htext Hin) as [Ht Hcr].
    apply andb_true_iff in Hb as [-> _].
    repeat split; try assumption. discriminate.
  - rewrite re_split_plus_collapse in Hy.
    destruct (split_at_pieces _ _ _ _ Hy Hc) as [Hin Hsep].
    apply collapse_runs_In in Hin. destruct (Htext Hin) as [Ht Hcr].
    rewrite sep_pattern_match in Hsep. unfold comma_or_line_break in Hsep.
    apply orb_false_iff in Hsep as [Hcomma Hlf].
    apply N.eqb_neq in Hcomma, Hlf. repeat split; auto.
Qed.

Lemma make_list_parts_total (t : str) (b : bool) :
  (total_length (make_list_parts t b) <= length t)%nat.
Proof.
  unfold make_list_parts. set (text := strip _).
  assert (Htext : (length text <= length t)%nat).
  { unfold text. pose proof (strip_length (str_replace CR empty_str t)).
    pose proof (delete_cr_length t). lia. }
  destruct (b && str_contains LF text);
    (etransitivity; [apply total_length_strip|]).
  - rewrite str_split_split_at. pose proof (split_at_total (fun c => c =? LF) text).
    lia.
  - rewrite re_split_plus_collapse.
    pose proof (split_at_total (charset_match sep_pattern)
                  (collapse_runs (charset_match sep_pattern) false text)).
    pose proof (collapse_runs_length (charset_match sep_pattern) false text).
    lia.
Qed.

(** X4: an item is made of characters of the text: [make_list] adds none. *)
Theorem make_list_items_from_text (t : str) (prefer_newline : bool) :
  Forall (fun item => Forall (fun c => In c t) item)
         (make_list (Some t) prefer_newline).
Proof.
  rewrite make_list_unfold. apply List.Forall_forall. intros x Hx.
  apply filter_In in Hx as [Hx _]. apply List.Forall_forall. intros c Hc.
  now destruct (make_list_parts_chars _ _ _ _ Hx Hc).
Qed.

(** X5: no item holds a line break or a carriage return, and without the
    line-split flag none holds a comma. *)
Theorem make_list_items_no_separator (t : str) (prefer_newline : bool) :
  Forall (fun item => ~ In LF item /\ ~ In CR item)
         (make_list (Some t) prefer_newline)
  /\ Forall (fun item => ~ In COMMA item) (make_list (Some t) false).
Proof.
  rewrite !make_list_unfold. split; apply List.Forall_forall; intros x Hx;
    apply filter_In in Hx as [Hx _].
  - split; intros Hc;
      destruct (make_list_parts_chars _ _ _ _ Hx Hc) as (_ & Hcr & Hlf & _);
      congruence.
  - intros Hc.
    destruct (make_list_parts_chars _ _ _ _ Hx Hc) as (_ & _ & _ & Hcomma).
    now apply Hcomma.
Qed.

(** X6: the items together are no longer than the text, and as each has two
    characters or more there are at most half as many items as the text has
    characters. *)
Theorem make_list_count_bound (t : str) (prefer_newline : bool) :
  (total_length (make_list (Some t) prefer_newline) <= length t)%nat
  /\ (2 * length (make_list (Some t) prefer_newline) <= length t)%nat.
Proof.
  assert (Htot : (total_length (make_list (Some t) prefer_newline)
                  <= length t)%nat).
  { rewrite make_list_unfold.
    etransitivity; [apply total_length_filter|apply make_list_parts_total]. }
  split; [exact Htot|].
  etransitivity; [|exact Htot]. apply total_length_two.
  rewrite make_list_unfold. apply List.Forall_forall. intros x Hx.
  apply filter_In in Hx as [_ Hx]. now apply keep_item_length.
Qed.

(** *** Joining entries and splitting them again *)

Lemma str_join_cons (sep p : str) (rest : list (list N)) :
  str_join sep (p :: rest) = p ++ flat_map (fun q => sep ++ q) rest.
Proof.
  revert p. induction rest as [|q r IH]; intros p.
  - simpl. now rewrite app_nil_r.
  - change (str_join sep (p :: q :: r)) with (p ++ sep ++ str_join sep (q :: r)).
    rewrite IH. cbn [flat_map]. now rewrite <- !app_assoc.
Qed.

Lemma forallb_flat_map {A B} (f : B -> bool) (g : A -> list B) (l : list A) :
  forallb (fun x => forallb f (g x)) l = true ->
  forallb f (flat_map g l) = true.
Proof.
  induction l as [|x l IH]; simpl; [reflexivity|].
  intros H. apply andb_true_iff in H as [Hx Hl].
  rewrite forallb_app, Hx. simpl. auto.
Qed.

Lemma forallb_join (f : char -> bool) (sep : str) (items : list (list N)) :
  forallb f sep = true -> forallb (forallb f) items = true ->
  forallb f (str_join sep items) = true.
Proof.
  intros Hsep Hitems. destruct items as [|p rest]; [reflexivity|].
  rewrite str_join_cons. simpl in Hitems.
  apply andb_true_iff in Hitems as [Hp Hrest].
  rewrite forallb_app, Hp. simpl. apply forallb_flat_map.
  apply forallb_forall. intros q Hq.
  rewrite forallb_app, Hsep. simpl.
  rewrite forallb_forall in Hrest. auto.
Qed.

Lemma ends_with_space_app (a b : str) :
  b <> [] -> ends_with_space (a ++ b) = ends_with_space b.
Proof.
  intros Hb. unfold ends_with_space. rewrite rev_app_distr.
  destruct (rev b) as [|x r] eqn:E; [|reflexivity].
  exfalso. apply Hb. apply (f_equal (@rev N)) in E.
  now rewrite rev_involutive in E.
Qed.

Lemma join_clean_ends (sep : str) (items : list (list N)) :
  Forall (fun p => p <> [] /\ clean_text p) items ->
  clean_text (str_join sep items).
Proof.
  induction 1 as [|p rest [Hne [Hs He]] Hrest IH]; [split; reflexivity|].
  split.
  - rewrite str_join_cons. destruct p as [|x p']; [contradiction|exact Hs].
  - destruct rest as [|q r]; [exact He|].
    change (str_join sep (p :: q :: r)) with (p ++ sep ++ str_join sep (q :: r)).
    rewrite app_assoc, ends_with_space_app; [apply IH|].
    rewrite str_join_cons. inversion Hrest as [|? ? [Hq _] _]; subst.
    destruct q; [contradiction|discriminate].
Qed.

Lemma split_at_free (P : char -> bool) (a : str) :
  forallb (fun c => negb (P c)) a = true -> split_at P a = [a].
Proof.
  induction a as [|x a IH]; simpl; [reflexivity|].
  intros H. apply andb_true_iff in H as [Hx Ha].
  apply negb_true_iff in Hx. now rewrite Hx, IH.
Qed.

Lemma split_at_app_sep (P : char -> bool) (a : str) (c : char) (Y : str) :
  forallb (fun c => negb (P c)) a = true -> P c = true ->
  split_at P (a ++ c :: Y) = a :: split_at P Y.
Proof.
  intros Ha Hc. induction a as [|x a IH]; simpl.
  - now rewrite Hc.
  - simpl in Ha. apply andb_true_iff in Ha as [Hx Ha].
    apply negb_true_iff in Hx. now rewrite Hx, IH.
Qed.

Lemma collapse_free (P : char -> bool) (b : bool) (a : str) :
  forallb (fun c => negb (P c)) a = true -> collapse_runs P b a = a.
Proof.
  revert b. induction a as [|x a IH]; intros b; simpl; [reflexivity|].
  intros H. apply andb_true_iff in H as [Hx Ha].
  apply negb_true_iff in Hx. now rewrite Hx, IH.
Qed.

Lemma collapse_app_sep (P : char -> bool) (a : str) (c : char) (X : str) :
  forallb (fun c => negb (P c)) a = true -> P c = true ->
  collapse_runs P false (a ++ c :: X) = a ++ c :: collapse_runs P true X.
Proof.
  intros Ha Hc. induction a as [|x a IH]; simpl.
  - now rewrite Hc.
  - simpl in Ha. apply andb_true_iff in Ha as [Hx Ha].
    apply negb_true_iff in Hx. now rewrite Hx, IH.
Qed.

Lemma collapse_after_sep (P : char -> bool) (a X : str) :
  a <> [] -> forallb (fun c => negb (P c)) a = true ->
  collapse_runs P true (a ++ X) = collapse_runs P false (a ++ X).
Proof.
  destruct a as [|x a]; [contradiction|]. intros _ H. simpl in *.
  apply andb_true_iff in H as [Hx _]. apply negb_true_iff in Hx.
  now rewrite Hx.
Qed.

Lemma split_join (P : char -> bool) (c : char) (pad : str)
      (rest : list (list N)) :
  P c = true ->
  forall p : str,
    forallb (fun c => negb (P c)) p = true ->
    Forall (fun q => forallb (fun c => negb (P c)) (pad ++ q) = true) rest ->
    split_at P (p ++ flat_map (fun q => (c :: pad) ++ q) rest) =
    p :: map (app pad) rest.
Proof.
  intros Hc. induction rest as [|q r IH]; intros p Hp Hrest.
  - simpl. rewrite app_nil_r. now apply split_at_free.
  - inversion Hrest as [|? ? Hq Hr]; subst. cbn [flat_map map].
    change ((c :: pad) ++ q) with (c :: (pad ++ q)).
    rewrite <- app_comm_cons, split_at_app_sep by assumption.
    now rewrite IH.
Qed.

Lemma collapse_join (P : char -> bool) (c : char) (pad : str)
      (rest : list (list N)) :
  P c = true ->
  forall p : str,
    forallb (fun c => negb (P c)) p = true ->
    Forall (fun q => pad ++ q <> []
                     /\ forallb (fun c => negb (P c)) (pad ++ q) = true)
           rest ->
    collapse_runs P false (p ++ flat_map (fun q => (c :: pad) ++ q) rest) =
    p ++ flat_map (fun q => (c :: pad) ++ q) rest.
Proof.
  intros Hc. induction rest as [|q r IH]; intros p Hp Hrest.
  - simpl. rewrite app_nil_r. now apply collapse_free.
  - inversion Hrest as [|? ? [Hne Hq] Hr]; subst. cbn [flat_map].
    change ((c :: pad) ++ q) with (c :: (pad ++ q)).
    rewrite <- app_comm_cons, collapse_app_sep by assumption.
    rewrite collapse_after_sep by assumption.
    now rewrite IH.
Qed.

Lemma no_cr_replace (s : str) :
  forallb (fun c => negb (c =? CR)) s = true ->
  str_replace CR empty_str s = s.
Proof.
  intros H. unfold empty_str. rewrite str_replace_delete.
  now apply forallb_filter_id.
Qed.

Lemma forallb_impl {A} (f g : A -> bool) (l : list A) :
  (forall x, f x = true -> g x = true) ->
  forallb f l = true -> forallb g l = true.
Proof.
  intros Hfg H. rewrite forallb_forall in *. auto.
Qed.

Lemma line_char_not_cr (c : char) :
  line_char c = true -> negb (c =? CR) = true.
Proof.
  unfold line_char. destruct (c =? LF), (c =? CR); auto.
Qed.

Lemma line_char_not_lf (c : char) :
  line_char c = true -> negb (c =? LF) = true.
Proof.
  unfold line_char. destruct (c =? LF), (c =? CR); auto.
Qed.

Lemma plain_char_line (c : char) : plain_char c = true -> line_char c = true.
Proof. unfold plain_char. intros H. now apply andb_true_iff in H. Qed.

Lemma plain_char_free (c : char) :
  plain_char c = true -> negb (charset_match sep_pattern c) = true.
Proof.
  rewrite sep_pattern_match. unfold plain_char, line_char, comma_or_line_break.
  destruct (c =? COMMA), (c =? LF), (c =? CR); auto.
Qed.

Lemma inline_space_free (c : char) :
  inline_space c = true -> negb (charset_match sep_pattern c) = true.
Proof.
  rewrite sep_pattern_match. unfold inline_space, comma_or_line_break.
  intros H. apply andb_true_iff in H as [Hsp Hline].
  apply line_char_not_lf in Hline.
  destruct (c =? COMMA) eqn:Hcomma; [|now destruct (c =? LF)].
  char_arith; lia.
Qed.

Lemma no_lf_contains (s : str) :
  forallb (fun c => negb (c =? LF)) s = true -> str_contains LF s = false.
Proof.
  intros H. rewrite str_contains_line_break. unfold line_break.
  induction s as [|c s IH]; simpl in *; [reflexivity|].
  apply andb_true_iff in H as [Hc Hs]. apply negb_true_iff in Hc.
  rewrite Hc. auto.
Qed.

Lemma plain_entry_facts (p : str) :
  plain_entry p = true ->
  (2 <= length p)%nat /\ clean_text p /\ forallb plain_char p = true.
Proof.
  unfold plain_entry, clean_text. intros H.
  apply andb_true_iff in H as [H Hchars].
  apply andb_true_iff in H as [H Hend].
  apply andb_true_iff in H as [Hlen Hstart].
  apply Nat.ltb_lt in Hlen. apply negb_true_iff in Hstart, Hend. auto.
Qed.

Lemma line_entry_facts (p : str) :
  line_entry p = true ->
  (2 <= length p)%nat /\ clean_text p /\ forallb line_char p = true.
Proof.
  unfold line_entry, clean_text. intros H.
  apply andb_true_iff in H as [H Hchars].
  apply andb_true_iff in H as [H Hend].
  apply andb_true_iff in H as [Hlen Hstart].
  apply Nat.ltb_lt in Hlen. apply negb_true_iff in Hstart, Hend. auto.
Qed.

Lemma keep_entries (items : list (list N)) :
  Forall (fun p => (2 <= length p)%nat) items ->
  List.filter (fun p => truthy p && (1 <? length p)%nat) items = items.
Proof.
  intros H. apply forallb_filter_id. apply forallb_forall.
  rewrite List.Forall_forall in H. intros p Hp.
  now apply keep_item_length, H.
Qed.

Lemma strip_padded_entries (pad : str) (items : list (list N)) :
  forallb isspace pad = true ->
  Forall clean_text items ->
  map strip (map (app pad) items) = items.
Proof.
  intros Hpad. induction 1 as [|q r [Hs He] Hr IH]; [reflexivity|].
  cbn [map]. rewrite IH. f_equal.
  rewrite <- (app_nil_r q) at 1. rewrite strip_pad by auto.
  now apply strip_fixed.
Qed.

Lemma nonempty_length (p : str) : (2 <= length p)%nat -> p <> [].
Proof. destruct p; simpl; [lia|discriminate]. Qed.

Lemma typed_entry_facts (p : str) :
  typed_entry p = true ->
  p <> [] /\ clean_text p /\ forallb plain_char p = true.
Proof.
  unfold typed_entry, clean_text. intros H.
  apply andb_true_iff in H as [H Hchars].
  apply andb_true_iff in H as [H Hend].
  apply andb_true_iff in H as [Hlen Hstart].
  apply negb_true_iff in Hstart, Hend.
  repeat split; try assumption. now destruct p.
Qed.

Lemma plain_entry_typed (p : str) :
  plain_entry p = true -> typed_entry p = true.
Proof.
  unfold plain_entry, typed_entry. intros H.
  apply andb_true_iff in H as [H Hchars].
  apply andb_true_iff in H as [H Hend].
  apply andb_true_iff in H as [Hlen Hstart].
  rewrite Hchars, Hend, Hstart. destruct p; [discriminate|reflexivity].
Qed.

Lemma join_commas_split (pad : str) (items : list (list N)) (b : bool) :
  forallb inline_space pad = true ->
  forallb typed_entry items = true ->
  make_list (Some (str_join (COMMA :: pad) items)) b =
  List.filter (fun p => (2 <=? length p)%nat) items.
Proof.
  intros Hpad Hitems.
  destruct items as [|p rest]; [now destruct b|].
  assert (Hfacts : Forall (fun q => q <> [] /\ clean_text q
                                    /\ forallb plain_char q = true)
                          (p :: rest)).
  { apply List.Forall_forall. intros q Hq. apply typed_entry_facts.
    rewrite forallb_forall in Hitems. auto. }
  assert (Hspace : forallb isspace pad = true).
  { revert Hpad. apply forallb_impl. unfold inline_space. intros c Hc.
    now apply andb_true_iff in Hc. }
  assert (Hline : forallb line_char (str_join (COMMA :: pad) (p :: rest))
                  = true).
  { apply forallb_join.
    - simpl. revert Hpad. apply forallb_impl. unfold inline_space.
      intros c Hc. now apply andb_true_iff in Hc.
    - apply forallb_forall. intros q Hq.
      rewrite List.Forall_forall in Hfacts.
      destruct (Hfacts q Hq) as (_ & _ & Hchars).
      revert Hchars. apply forallb_impl, plain_char_line. }
  rewrite make_list_unfold. unfold make_list_parts.
  rewrite no_cr_replace
    by (revert Hline; apply forallb_impl, line_char_not_cr).
  rewrite strip_fixed.
  2,3: apply (join_clean_ends (COMMA :: pad) (p :: rest));
       revert Hfacts; apply List.Forall_impl;
       intros x (Hx & Hcl & _); split; assumption.
  rewrite no_lf_contains
    by (revert Hline; apply forallb_impl, line_char_not_lf).
  rewrite andb_false_r, re_split_plus_collapse, str_join_cons.
  inversion Hfacts as [|? ? (Hlen & Hclean & Hchars) Hrest]; subst.
  assert (Hp : forallb (fun c => negb (charset_match sep_pattern c)) p = true)
    by (revert Hchars; apply forallb_impl, plain_char_free).
  assert (Hfree : Forall (fun q => pad ++ q <> []
                    /\ forallb (fun c => negb (charset_match sep_pattern c))
                               (pad ++ q) = true) rest).
  { revert Hrest. apply List.Forall_impl. intros q (Hq & _ & Hqc). split.
    - intros E. now apply app_eq_nil in E as [_ ->].
    - rewrite forallb_app. apply andb_true_iff. split.
      + revert Hpad. apply forallb_impl, inline_space_free.
      + revert Hqc. apply forallb_impl, plain_char_free. }
  rewrite collapse_join; [|now rewrite sep_pattern_match|exact Hp|exact Hfree].
  rewrite split_join;
    [|now rewrite sep_pattern_match|exact Hp
     |revert Hfree; apply List.Forall_impl; intros q [_ Hq]; exact Hq].
  cbn [map]. rewrite strip_padded_entries;
    [|exact Hspace
     |revert Hrest; apply List.Forall_impl; intros x (_ & Hcl & _); exact Hcl].
  rewrite strip_fixed by apply Hclean.
  apply filter_ext. intros [|x [|y q]]; reflexivity.
Qed.

Lemma join_commas_roundtrip (pad : str) (items : list (list N)) (b : bool) :
  forallb inline_space pad = true ->
  forallb plain_entry items = true ->
  make_list (Some (str_join (COMMA :: pad) items)) b = items.
Proof.
  intros Hpad Hitems. rewrite join_commas_split.
  - apply forallb_filter_id. revert Hitems. apply forallb_impl.
    intros p Hp. destruct (plain_entry_facts p Hp) as [Hlen _].
    now apply Nat.leb_le.
  - exact Hpad.
  - revert Hitems. apply forallb_impl, plain_entry_typed.
Qed.

Lemma join_lines_roundtrip (p q : str) (rest : list (list N)) :
  forallb line_entry (p :: q :: rest) = true ->
  make_list (Some (str_join [LF] (p :: q :: rest))) true = p :: q :: rest.
Proof.
  intros Hitems.
  assert (Hfacts : Forall (fun q => (2 <= length q)%nat /\ clean_text q
                                    /\ forallb line_char q = true)
                          (p :: q :: rest)).
  { apply List.Forall_forall. intros x Hx. apply line_entry_facts.
    rewrite forallb_forall in Hitems. auto. }
  rewrite make_list_unfold. unfold make_list_parts.
  rewrite no_cr_replace.
  2:{ apply forallb_join; [reflexivity|].
      apply forallb_forall. intros x Hx.
      rewrite List.Forall_forall in Hfacts.
      destruct (Hfacts x Hx) as (_ & _ & Hchars).
      revert Hchars. apply forallb_impl, line_char_not_cr. }
  rewrite strip_fixed.
  2,3: apply (join_clean_ends [LF] (p :: q :: rest));
       revert Hfacts; apply List.Forall_impl; intros x (Hlen & Hclean & _);
       split; [now apply nonempty_length|exact Hclean].
  rewrite str_join_cons.
  assert (Hlf : str_contains LF
                  (p ++ flat_map (fun x => [LF] ++ x) (q :: rest)) = true).
  { unfold str_contains. rewrite existsb_app. cbn [flat_map app existsb].
    rewrite N.eqb_refl. apply orb_true_r. }
  rewrite Hlf. cbn [andb]. rewrite str_split_split_at.
  inversion Hfacts as [|? ? (Hlen & Hclean & Hchars) Hrest]; subst.
  rewrite (split_join (fun c => c =? LF) LF []);
    [|reflexivity
     |revert Hchars; apply forallb_impl, line_char_not_lf
     |revert Hrest; apply List.Forall_impl; intros x (_ & _ & Hx);
      revert Hx; apply forallb_impl, line_char_not_lf].
  change (map strip (p :: ?l)) with (strip p :: map strip l).
  rewrite strip_padded_entries;
    [|reflexivity
     |revert Hrest; apply List.Forall_impl; intros x (_ & Hcl & _); exact Hcl].
  rewrite strip_fixed by apply Hclean.
  apply keep_entries. revert Hfacts. apply List.Forall_impl.
  intros x (Hx & _); exact Hx.
Qed.

Lemma make_list_items_plain (t : str) :
  forallb plain_entry (make_list (Some t) false) = true.
Proof.
  apply forallb_forall. intros x Hx. rewrite make_list_unfold in Hx.
  apply filter_In in Hx as [Hx Hkeep].
  destruct (make_list_parts_stripped _ _ _ Hx) as [y Hy].
  destruct (strip_clean y) as [Hs He]. rewrite <- Hy in Hs, He.
  apply keep_item_length in Hkeep.
  unfold plain_entry. rewrite Hs, He. cbn [negb].
  rewrite (proj2 (Nat.ltb_lt 1 (length x))) by lia. cbn [andb].
  apply forallb_forall. intros c Hc.
  destruct (make_list_parts_chars _ _ _ _ Hx Hc) as (_ & Hcr & Hlf & Hcomma).
  specialize (Hcomma eq_refl).
  apply N.eqb_neq in Hcr, Hlf, Hcomma.
  unfold plain_char, line_char. now rewrite Hcr, Hlf, Hcomma.
Qed.

(** X7: entries joined with commas, each comma followed by any white space
    that stays on the line, come back as they were, with or without the
    line-split flag, provided each entry has two characters or more, no
    white space at its ends and no comma, line break or carriage return. *)
Theorem make_list_join_commas (pad : str) (items : list (list N))
        (prefer_newline : bool) :
  forallb inline_space pad = true ->
  forallb plain_entry items = true ->
  make_list (Some (str_join (COMMA :: pad) items)) prefer_newline = items.
Proof. apply join_commas_roundtrip. Qed.

(** X8: with the line-split flag, two or more entries joined with line
    breaks come back as they were, commas inside them included, provided
    each has two characters or more, no white space at its ends and no line
    break or carriage return. *)
Theorem make_list_join_lines (p q : str) (rest : list (list N)) :
  forallb line_entry (p :: q :: rest) = true ->
  make_list (Some (str_join [LF] (p :: q :: rest))) true = p :: q :: rest.
Proof. apply join_lines_roundtrip. Qed.

(** X9: the items of a comma split are in normal form: joined with ", " and
    split again, under either flag, they are the same items. *)
Theorem make_list_renormalize (t : str) (prefer_newline : bool) :
  make_list (Some (str_join (py ", ") (make_list (Some t) false)))
            prefer_newline =
  make_list (Some t) false.
Proof.
  change (py ", ") with (COMMA :: [SPACE]).
  apply join_commas_roundtrip; [reflexivity|apply make_list_items_plain].
Qed.

(** X25: entries of one character are dropped from a comma list: of the
    entries joined with commas, trimmed and with no separator inside, the
    ones with two characters or more come back, in their order. *)
Theorem make_list_drops_short_entries (pad : str) (items : list (list N))
        (prefer_newline : bool) :
  forallb inline_space pad = true ->
  forallb typed_entry items = true ->
  make_list (Some (str_join (COMMA :: pad) items)) prefer_newline =
  List.filter (fun p => (2 <=? length p)%nat) items.
Proof. apply join_commas_split. Qed.

(** X10: on a text without a line break the line-split flag changes
    nothing: the text is split at its commas. *)
Theorem make_list_single_line (t : str) :
  ~ In LF t ->
  make_list (Some t) true = make_list (Some t) false.
Proof.
  intros Hlf. rewrite !make_list_unfold. unfold make_list_parts.
  set (text := strip _).
  assert (H : str_contains LF text = false).
  { apply no_lf_contains, forallb_forall. intros c Hc.
    apply negb_true_iff, N.eqb_neq. intros ->. apply Hlf.
    apply strip_In in Hc. now apply delete_cr_In in Hc. }
  now rewrite H.
Qed.

(** *** Slugs and file names *)

Lemma underscore_spaces_clean (u : str) :
  clean_text u ->
  clean_text (map (fun c => if c =? SPACE then UNDERSCORE else c) u).
Proof.
  assert (Hhead : forall v : str,
             starts_with_space v = false ->
             starts_with_space
               (map (fun c => if c =? SPACE then UNDERSCORE else c) v)
             = false).
  { intros [|x v]; simpl; [reflexivity|]. intros Hx.
    destruct (x =? SPACE) eqn:E; [reflexivity|exact Hx]. }
  intros [Hs He]. split; [now apply Hhead|].
  unfold ends_with_space in *. rewrite <- map_rev. now apply Hhead.
Qed.

Lemma underscore_spaces_twice (u : str) :
  map (fun c => if c =? SPACE then UNDERSCORE else c)
      (map (fun c => if c =? SPACE then UNDERSCORE else c) u) =
  map (fun c => if c =? SPACE then UNDERSCORE else c) u.
Proof.
  rewrite map_map. apply map_ext. intros c.
  destruct (c =? SPACE) eqn:E; [reflexivity|now rewrite E].
Qed.

Lemma token_char_not_slash (c : char) : token_char c = true -> c <> SLASH.
Proof. intros H ->. discriminate H. Qed.

(** X11: a name that is not empty and holds permitted characters only is
    its own slug, given that the Unicode database marks no white-space
    character as alphanumeric. *)
Theorem slugify_keeps_safe_names (s : str) :
  (forall x, isspace x = true -> unicode_alnum x = false) ->
  Forall (fun c => token_char c = true) s ->
  s <> [] ->
  slugify s = s.
Proof.
  intros Huni Hall Hne. rewrite slugify_sanitize. now apply sanitize_fixed.
Qed.

(** X12: a slug holds no white space, under the same fact about the
    Unicode database. *)
Theorem slugify_no_white_space (s : str) :
  (forall x, isspace x = true -> unicode_alnum x = false) ->
  Forall (fun c => isspace c = false) (slugify s).
Proof.
  intros Huni. rewrite slugify_sanitize.
  destruct (sanitize_spec_token s) as [Htok _].
  revert Htok. apply List.Forall_impl. intros c.
  now apply token_char_not_space.
Qed.

(** X13: a slug is the fallback "portfolio" or is no longer than the
    name. *)
Theorem slugify_length (s : str) :
  slugify s = py "portfolio" \/ (length (slugify s) <= length s)%nat.
Proof.
  rewrite slugify_sanitize. unfold sanitize_spec.
  set (u := map _ (strip s)).
  assert (Hlen : (length (List.filter token_char u) <= length s)%nat).
  { etransitivity; [apply filter_length_le|]. unfold u.
    rewrite length_map. apply strip_length. }
  destruct (List.filter token_char u); [now left|now right].
Qed.

(** X14: names that differ only in white space around them, or in
    underscores written for the spaces inside, have the same slug. *)
Theorem slugify_collisions (s : str) :
  slugify (strip s) = slugify s
  /\ slugify (str_replace SPACE (py "_") (strip s)) = slugify s.
Proof.
  unfold slugify. change (py "_") with [UNDERSCORE].
  rewrite strip_idempotent. split; [reflexivity|].
  rewrite !str_replace_char.
  destruct (underscore_spaces_clean (strip s) (strip_clean s)) as [Hs He].
  rewrite strip_fixed by assumption.
  now rewrite underscore_spaces_twice.
Qed.

Lemma pdf_filename_slug (data : profile) :
  exists slug,
    slug <> [] /\ Forall (fun c => token_char c = true) slug
    /\ pdf_filename data = slug ++ py ".pdf".
Proof.
  exists (slugify (py_or (name data) (py "portfolio"))).
  rewrite slugify_sanitize.
  destruct (sanitize_spec_token (py_or (name data) (py "portfolio")))
    as [Htok Hne].
  repeat split; try assumption.
  unfold pdf_filename. now rewrite slugify_sanitize.
Qed.

(** X15: the file name [generate] builds is a slug followed by ".pdf" and
    holds no "/", so the file it writes lies directly in the output
    directory. *)
Theorem pdf_filename_in_output_dir (data : profile) :
  (exists slug,
      slug <> [] /\ Forall (fun c => token_char c = true) slug
      /\ pdf_filename data = slug ++ py ".pdf")
  /\ ~ In SLASH (pdf_filename data)
  /\ os_path_join OUTPUT_DIR (pdf_filename data) =
     py "generated_portfolios/" ++ pdf_filename data.
Proof.
  destruct (pdf_filename_slug data) as (slug & Hne & Htok & Hname).
  split; [eauto|]. rewrite Hname.
  rewrite List.Forall_forall in Htok. split.
  - intros Hin. apply in_app_or in Hin as [Hin|Hin].
    + now apply (token_char_not_slash _ (Htok _ Hin)).
    + vm_compute in Hin. repeat (destruct Hin as [Hin|Hin]; [discriminate|]).
      contradiction.
  - destruct slug as [|x slug]; [contradiction|].
    unfold os_path_join. cbn [app startswith].
    assert (Hx : x <> SLASH) by (apply token_char_not_slash, Htok; now left).
    apply N.eqb_neq in Hx. rewrite Hx. reflexivity.
Qed.

(** ** Further properties of the record, the blocks and the handlers *)

Lemma make_list_clean (t : option (list N)) (b : bool) :
  Forall clean_entry (make_list t b).
Proof.
  destruct t as [t|]; [|constructor]. rewrite make_list_unfold.
  apply List.Forall_forall. intros p Hp.
  apply filter_In in Hp as [Hp Hkeep].
  apply make_list_parts_stripped in Hp as [x ->].
  split; [now apply keep_item_length|apply strip_clean].
Qed.

Lemma form_get_insert_empty (form : gmap string (list N)) (key k : string) :
  form !! key = None ->
  form_get (<[key := empty_str]> form) k = form_get form k.
Proof.
  intros Hnone. unfold form_get. destruct (decide (key = k)) as [->|Hne].
  - now rewrite lookup_insert_eq, Hnone.
  - now rewrite lookup_insert_ne.
Qed.

Lemma form_get_pad (l r : str) (form : gmap string (list N)) (k : string) :
  form_get (pad_fields l r form) k =
  match form !! k with
  | Some v => l ++ v ++ r
  | None => empty_str
  end.
Proof.
  unfold form_get, pad_fields. rewrite lookup_fmap.
  now destruct (form !! k).
Qed.

Lemma strip_form_get_pad (l r : str) (form : gmap string (list N))
      (k : string) :
  forallb isspace l = true -> forallb isspace r = true ->
  strip (form_get (pad_fields l r form) k) = strip (form_get form k).
Proof.
  intros Hl Hr. rewrite form_get_pad. unfold form_get.
  destruct (form !! k); [now apply strip_pad|reflexivity].
Qed.

Lemma make_list_form_get_pad (l r : str) (form : gmap string (list N))
      (k : string) (b : bool) :
  forallb isspace l = true -> forallb isspace r = true ->
  make_list (Some (form_get (pad_fields l r form) k)) b =
  make_list (Some (form_get form k)) b.
Proof.
  intros Hl Hr. rewrite form_get_pad. unfold form_get.
  destruct (form !! k); [|reflexivity]. cbn [default].
  rewrite !make_list_unfold. now rewrite make_list_parts_pad.
Qed.

(** X16: the record built from any form keeps the invariant of the data
    model: every scalar field is trimmed and every list entry is trimmed and
    has two characters or more. *)
Theorem build_data_invariant (form : gmap string (list N)) :
  profile_invariant (build_data form).
Proof.
  unfold profile_invariant. split.
  - repeat (apply List.Forall_cons; [apply strip_clean|]). constructor.
  - repeat (apply List.Forall_cons; [apply make_list_clean|]). constructor.
Qed.

(** X17: a field that the form does not hold counts as an empty one: the
    record is the same, and so is what [generate] does. *)
Theorem build_data_missing_field (env : ambient)
        (form : gmap string (list N)) (key : string) :
  form !! key = None ->
  build_data (<[key := empty_str]> form) = build_data form
  /\ generate env (<[key := empty_str]> form) = generate env form.
Proof.
  intros Hnone.
  assert (Hdata : build_data (<[key := empty_str]> form) = build_data form).
  { unfold build_data. now rewrite !form_get_insert_empty. }
  split; [exact Hdata|]. unfold generate. now rewrite Hdata.
Qed.

(** X18: white space around the submitted values does not change the
    record. *)
Theorem build_data_ignores_padding (l r : str)
        (form : gmap string (list N)) :
  forallb isspace l = true -> forallb isspace r = true ->
  build_data (pad_fields l r form) = build_data form.
Proof.
  intros Hl Hr. unfold build_data.
  now rewrite !strip_form_get_pad, !make_list_form_get_pad.
Qed.

Lemma download_run (filename : str) (fs : gmap (list N) (list byte)) :
  download filename fs =
  (Returned
     match fs !! os_path_join OUTPUT_DIR filename with
     | Some body => send_file (os_path_join OUTPUT_DIR filename) true body
     | None => text_response (py "File not found.") 404
     end,
   fs).
Proof.
  unfold download, bind, os_path_exists, read_file.
  destruct (fs !! os_path_join OUTPUT_DIR filename) as [body|] eqn:E.
  - rewrite bool_decide_eq_true_2 by eauto. cbn [negb]. now rewrite E.
  - rewrite bool_decide_eq_false_2; [reflexivity|].
    intros [x Hx]. discriminate.
Qed.

(** X20: what [generate] writes can be downloaded: when the renderer
    succeeds, [download] on the link that [generate] returns gives the
    rendered bytes. *)
Theorem generate_then_download (env : ambient) (form : gmap string (list N))
        (fs : gmap (list N) (list byte)) (pdf : list byte) :
  render env (generate_doc form)
         (assemble (generate_doc form) (build_data form)) = Some pdf ->
  (generate env form fs).1 =
  Returned (render_template "portfolio.html" (build_data form)
              (pdf_filename (build_data form)))
  /\ download (pdf_filename (build_data form)) (generate env form fs).2 =
     (Returned (send_file (generate_path form) true pdf),
      (generate env form fs).2).
Proof.
  intros Hpdf. rewrite generate_run, Hpdf. cbn [fst snd].
  split; [reflexivity|].
  rewrite download_run. fold (generate_path form).
  now rewrite lookup_insert_eq.
Qed.

(** X21: [generate] touches one path only: every other file on storage is
    as it was. *)
Theorem generate_other_files (env : ambient) (form : gmap string (list N))
        (fs : gmap (list N) (list byte)) (path : str) :
  path <> generate_path form ->
  (generate env form fs).2 !! path = fs !! path.
Proof.
  intros Hne. rewrite generate_run.
  destruct (render _ _ _); cbn [snd]; [|reflexivity].
  now rewrite lookup_insert_ne.
Qed.

(** X26: two forms whose names have the same slug share one file, and the
    last write wins: after both calls a download of that file gives the
    bytes rendered for the second form. *)
Theorem generate_last_write_wins (env1 env2 : ambient)
        (form1 form2 : gmap string (list N))
        (fs : gmap (list N) (list byte)) (pdf : list byte) :
  pdf_filename (build_data form1) = pdf_filename (build_data form2) ->
  render env2 (generate_doc form2)
         (assemble (generate_doc form2) (build_data form2)) = Some pdf ->
  download (pdf_filename (build_data form1))
           (generate env2 form2 (generate env1 form1 fs).2).2 =
  (Returned (send_file (generate_path form1) true pdf),
   (generate env2 form2 (generate env1 form1 fs).2).2).
Proof.
  intros Hsame Hpdf. rewrite download_run.
  fold (generate_path form1).
  assert (Hpath : generate_path form1 = generate_path form2)
    by (unfold generate_path; now rewrite Hsame).
  rewrite (generate_run env2), Hpdf. cbn [snd].
  now rewrite Hpath, lookup_insert_eq.
Qed.

(** X22: a name that is missing or white space only gives the title
    "Your Name" and the file name "portfolio.pdf". *)
Theorem blank_name_defaults (doc : SimpleDocTemplate)
        (form : gmap string (list N)) :
  forallb isspace (form_get form "name") = true ->
  head (assemble doc (build_data form)) =
  Some (Paragraph (py "Your Name") title_style)
  /\ pdf_filename (build_data form) = py "portfolio.pdf".
Proof.
  intros Hblank.
  assert (Hname : name (build_data form) = [])
    by (now apply strip_all_space).
  split.
  - rewrite assemble_layout. unfold assemble_spec. now rewrite Hname.
  - unfold pdf_filename. now rewrite Hname.
Qed.

Lemma bullet_in_section (title e : str) (entries : list (list N)) :
  In e entries ->
  In (bullet_item e) (section_blocks (title, Entries entries)).
Proof.
  intros He. unfold section_blocks. cbn [fst snd]. right.
  destruct entries as [|x l]; [contradiction|].
  now apply in_map.
Qed.

Lemma section_in_assemble (doc : SimpleDocTemplate) (data : profile)
      (sec : list N * section_body) (f : flowable) :
  In sec (sections data) -> In f (section_blocks sec) ->
  In f (assemble doc data).
Proof.
  intros Hsec Hf. rewrite assemble_layout. unfold assemble_spec.
  right. apply in_or_app. right. apply in_or_app. right.
  apply in_flat_map. eauto.
Qed.

(** X23: nothing the user entered in a section is left out: every entry of
    the five lists is a bullet of the document, and the about and education
    texts, when not empty, are paragraphs of it. *)
Theorem assemble_shows_entries (doc : SimpleDocTemplate) (data : profile) :
  (forall e, In e (all_entries data) ->
             In (bullet_item e) (assemble doc data))
  /\ (about data <> [] -> In (Paragraph (about data) normal)
                             (assemble doc data))
  /\ (education data <> [] -> In (Paragraph (education data) normal)
                                 (assemble doc data)).
Proof.
  split; [|split].
  - intros e He. unfold all_entries in He.
    repeat (apply in_app_or in He as [He|He]);
      (eapply section_in_assemble;
       [|apply bullet_in_section; exact He]); unfold sections; simpl; auto 10.
  - intros Hne. eapply (section_in_assemble _ _ (py "About Me", _)).
    + unfold sections. now left.
    + unfold section_blocks. cbn [fst snd]. right.
      destruct (about data); [contradiction|now left].
  - intros Hne. eapply (section_in_assemble _ _ (py "Education", _)).
    + unfold sections. right. right. now left.
    + unfold section_blocks. cbn [fst snd]. right.
      destruct (education data); [contradiction|now left].
Qed.

Lemma section_blocks_entries_length (title : str)
      (entries : list (list N)) :
  length (section_blocks (title, Entries entries)) =
  S (entries_blocks entries).
Proof.
  unfold section_blocks, entries_blocks. cbn [fst snd length].
  destruct entries; [reflexivity|]. now rewrite length_map.
Qed.

Lemma section_blocks_scalar_length (title text : str) :
  length (section_blocks (title, Scalar text)) = 2%nat.
Proof. unfold section_blocks. cbn [fst snd]. now destruct text. Qed.

(** X24: the number of blocks: twelve fixed ones (title, divider, spacer,
    seven headings, the about and education paragraphs), one more when
    there is a contact line, and for each list section one per entry, or one
    placeholder. *)
Theorem assemble_block_count (doc : SimpleDocTemplate) (data : profile) :
  length (assemble doc data) =
  (12 + length (contact_block data)
   + entries_blocks (skills data) + entries_blocks (projects data)
   + entries_blocks (certifications data)
   + entries_blocks (achievements data)
   + entries_blocks (interests data))%nat
  /\ (length (contact_block data) <= 1)%nat.
Proof.
  split.
  - rewrite assemble_layout. unfold assemble_spec, sections.
    cbn [flat_map length]. rewrite !length_app.
    rewrite !section_blocks_entries_length, !section_blocks_scalar_length.
    cbn [length]. lia.
  - unfold contact_block. destruct (present_contacts data); simpl; lia.
Qed.

End App.

(** ** The functions on concrete inputs *)

Lemma latin1_alnum_not_space (x : N) :
  isspace x = true -> latin1_alnum x = false.
Proof.
  intros Hsp. destruct (latin1_alnum x) eqn:Hal; [|reflexivity].
  unfold isspace, latin1_alnum in *.
  repeat match goal with
         | H : _ && _ = true |- _ => apply andb_true_iff in H; destruct H
         | H : _ || _ = true |- _ => apply orb_true_iff in H; destruct H
         | H : (_ <=? _) = true |- _ => apply N.leb_le in H
         | H : (_ =? _) = true |- _ => apply N.eqb_eq in H
         end; lia.
Qed.

Lemma slugify_idempotent_witness :
  (forall x, isspace x = true -> latin1_alnum x = false)
  /\ slugify latin1_alnum (slugify latin1_alnum sample_name) =
     slugify latin1_alnum sample_name.
Proof.
  split.
  - exact latin1_alnum_not_space.
  - exact (slugify_idempotent latin1_alnum _ latin1_alnum_not_space).
Defined.

Lemma download_missing_file_witness :
  sample_storage !! os_path_join OUTPUT_DIR (py "doesnotexist.pdf") = None
  /\ download (py "doesnotexist.pdf") sample_storage =
     (Returned (text_response (py "File not found.") 404), sample_storage).
Proof.
  assert (H : sample_storage !! os_path_join OUTPUT_DIR (py "doesnotexist.pdf")
              = None) by (vm_compute; reflexivity).
  split; [exact H|exact (download_missing_file _ _ H)].
Defined.

Example slugify_latin1 :
  slugify latin1_alnum sample_name =
  [90; 111; 235; 95; 68; 46; 45; 83; 109; 105; 116; 104; 95; 51; 178].
Proof. reflexivity. Qed.

Example slugify_punctuation_only (unicode_alnum : N -> bool) :
  slugify unicode_alnum (py "???") = py "portfolio".
Proof. reflexivity. Qed.

Example make_list_lines (unicode_alnum : N -> bool) :
  make_list unicode_alnum (Some [80; 121; 10; 71; 111; 10; 10; 82; 13; 10; 67])
            true =
  [py "Py"; py "Go"].
Proof. reflexivity. Qed.

Example make_list_runs (unicode_alnum : N -> bool) :
  make_list unicode_alnum (Some (py ",ab,, cd ,e,")) true =
  [py "ab"; py "cd"].
Proof. reflexivity. Qed.

Example download_existing_file :
  download (py "Jane_Doe.pdf") sample_storage =
  (Returned (send_file (py "generated_portfolios/Jane_Doe.pdf") true
               [x25; x50; x44; x46]),
   sample_storage).
Proof. vm_compute. reflexivity. Qed.

Example generate_sample_form :
  (generate latin1_alnum Z (595, 842)%Z
     (fun size left right => (fst size - left - right)%Z)
     nat (plain_render Z nat) 1%nat sample_form sample_storage).1 =
  Returned
    (render_template "portfolio.html"
       {| name := py "Jane Doe"; email := []; phone := []; linkedin := [];
          github := []; website := []; about := [];
          skills := [py "Python"; py "Rocq"]; education := [];
          projects := []; certifications := []; achievements := [];
          interests := [] |}
       (py "Jane_Doe.pdf")).
Proof. vm_compute. reflexivity. Qed.

Example generate_sample_path :
  generate_path latin1_alnum sample_form =
  py "generated_portfolios/Jane_Doe.pdf".
Proof. vm_compute. reflexivity. Qed.

(** ** The further properties on concrete inputs

    The handlers are run with the Latin-1 table, lengths as whole points, an
    A4 page of 595 by 842 points and the plain renderer. *)

Abbreviation points_width :=
  (fun (size : Z * Z) (left right : Z) => (fst size - left - right)%Z)
  (only parsing).

Abbreviation run_generate :=
  (generate latin1_alnum Z (595, 842)%Z points_width nat (plain_render Z nat))
  (only parsing).

Abbreviation run_doc :=
  (generate_doc latin1_alnum Z (595, 842)%Z) (only parsing).

Abbreviation run_rendered :=
  (rendered_or_empty latin1_alnum Z (595, 842)%Z points_width nat
     (plain_render Z nat))
  (only parsing).

Lemma make_list_blank_text_witness :
  forallb isspace [32; 13; 10; 9; 160] = true
  /\ make_list latin1_alnum (Some [32; 13; 10; 9; 160]) true = [].
Proof.
  split; [reflexivity|].
  exact (make_list_blank_text latin1_alnum [32; 13; 10; 9; 160] true eq_refl).
Defined.

Lemma make_list_ignores_padding_witness :
  forallb isspace [32; 10] = true /\ forallb isspace [13; 10] = true
  /\ make_list latin1_alnum
       (Some ([32; 10] ++ py "Python, Rocq" ++ [13; 10])) true =
     make_list latin1_alnum (Some (py "Python, Rocq")) true.
Proof.
  split; [reflexivity|]. split; [reflexivity|].
  exact (make_list_ignores_padding latin1_alnum [32; 10] (py "Python, Rocq")
           [13; 10] true eq_refl eq_refl).
Defined.

Lemma slugify_ignores_padding_witness :
  forallb isspace [9] = true /\ forallb isspace [32; 32] = true
  /\ slugify latin1_alnum ([9] ++ py "Jane Doe" ++ [32; 32]) =
     slugify latin1_alnum (py "Jane Doe").
Proof.
  split; [reflexivity|]. split; [reflexivity|].
  exact (slugify_ignores_padding latin1_alnum [9] (py "Jane Doe") [32; 32]
           eq_refl eq_refl).
Defined.

Lemma make_list_join_commas_witness :
  forallb inline_space [32] = true
  /\ forallb plain_entry [py "Data Analytics"; py "Web Development"] = true
  /\ make_list latin1_alnum
       (Some (str_join (COMMA :: [32])
                [py "Data Analytics"; py "Web Development"])) true =
     [py "Data Analytics"; py "Web Development"].
Proof.
  split; [reflexivity|]. split; [reflexivity|].
  exact (make_list_join_commas latin1_alnum [32]
           [py "Data Analytics"; py "Web Development"] true eq_refl eq_refl).
Defined.

Lemma make_list_join_lines_witness :
  forallb line_entry [py "Built X, Y and Z"; py "Portfolio builder"] = true
  /\ make_list latin1_alnum
       (Some (str_join [LF]
                [py "Built X, Y and Z"; py "Portfolio builder"])) true =
     [py "Built X, Y and Z"; py "Portfolio builder"].
Proof.
  split; [reflexivity|].
  exact (make_list_join_lines latin1_alnum (py "Built X, Y and Z")
           (py "Portfolio builder") [] eq_refl).
Defined.

Lemma make_list_drops_short_entries_witness :
  forallb inline_space [32] = true
  /\ forallb typed_entry [py "C"; py "Go"; py "R"; py "Rust"] = true
  /\ make_list latin1_alnum
       (Some (str_join (COMMA :: [32]) [py "C"; py "Go"; py "R"; py "Rust"]))
       true =
     List.filter (fun p => (2 <=? length p)%nat)
                 [py "C"; py "Go"; py "R"; py "Rust"].
Proof.
  split; [reflexivity|]. split; [reflexivity|].
  exact (make_list_drops_short_entries latin1_alnum [32]
           [py "C"; py "Go"; py "R"; py "Rust"] true eq_refl eq_refl).
Defined.

Lemma make_list_single_line_witness :
  ~ In LF (py "Go, Rust")
  /\ make_list latin1_alnum (Some (py "Go, Rust")) true =
     make_list latin1_alnum (Some (py "Go, Rust")) false.
Proof.
  assert (H : ~ In LF (py "Go, Rust")).
  { intros H. simpl in H.
    repeat (destruct H as [H|H]; [discriminate H|]). exact H. }
  split; [exact H|].
  exact (make_list_single_line latin1_alnum (py "Go, Rust") H).
Defined.

Lemma slugify_keeps_safe_names_witness :
  (forall x, isspace x = true -> latin1_alnum x = false)
  /\ Forall (fun c => token_char latin1_alnum c = true) [90; 111; 235; 46]
  /\ [90; 111; 235; 46] <> []
  /\ slugify latin1_alnum [90; 111; 235; 46] = [90; 111; 235; 46].
Proof.
  assert (Htok : Forall (fun c => token_char latin1_alnum c = true)
                        [90; 111; 235; 46])
    by (repeat constructor).
  assert (Hne : [90; 111; 235; 46] <> ([] : list N)) by discriminate.
  split; [exact latin1_alnum_not_space|]. split; [exact Htok|].
  split; [exact Hne|].
  exact (slugify_keeps_safe_names latin1_alnum [90; 111; 235; 46]
           latin1_alnum_not_space Htok Hne).
Defined.

Lemma slugify_no_white_space_witness :
  (forall x, isspace x = true -> latin1_alnum x = false)
  /\ Forall (fun c => isspace c = false) (slugify latin1_alnum sample_name).
Proof.
  split; [exact latin1_alnum_not_space|].
  exact (slugify_no_white_space latin1_alnum sample_name
           latin1_alnum_not_space).
Defined.

Lemma build_data_missing_field_witness :
  sample_form !! "email" = None
  /\ build_data latin1_alnum (<["email" := empty_str]> sample_form) =
     build_data latin1_alnum sample_form.
Proof.
  assert (H : sample_form !! "email" = None) by (vm_compute; reflexivity).
  split; [exact H|].
  exact (proj1 (build_data_missing_field latin1_alnum Z (595, 842)%Z
                  points_width nat (plain_render Z nat) 1%nat sample_form
                  "email" H)).
Defined.

Lemma build_data_ignores_padding_witness :
  forallb isspace [32] = true /\ forallb isspace [13; 10] = true
  /\ build_data latin1_alnum (pad_fields [32] [13; 10] sample_form) =
     build_data latin1_alnum sample_form.
Proof.
  split; [reflexivity|]. split; [reflexivity|].
  exact (build_data_ignores_padding latin1_alnum [32] [13; 10] sample_form
           eq_refl eq_refl).
Defined.

Lemma generate_then_download_witness :
  plain_render Z nat 1%nat (run_doc sample_form)
    (assemble Z points_width (run_doc sample_form)
       (build_data latin1_alnum sample_form)) =
  Some (run_rendered 1%nat sample_form)
  /\ download (pdf_filename latin1_alnum (build_data latin1_alnum sample_form))
       (run_generate 1%nat sample_form sample_storage).2 =
     (Returned (send_file (generate_path latin1_alnum sample_form) true
                  (run_rendered 1%nat sample_form)),
      (run_generate 1%nat sample_form sample_storage).2).
Proof.
  assert (H : plain_render Z nat 1%nat (run_doc sample_form)
                (assemble Z points_width (run_doc sample_form)
                   (build_data latin1_alnum sample_form)) =
              Some (run_rendered 1%nat sample_form))
    by (vm_compute; reflexivity).
  split; [exact H|].
  exact (proj2 (generate_then_download latin1_alnum Z (595, 842)%Z
                  points_width nat (plain_render Z nat) 1%nat sample_form
                  sample_storage (run_rendered 1%nat sample_form) H)).
Defined.

Lemma generate_other_files_witness :
  py "generated_portfolios/Other.pdf" <> generate_path latin1_alnum sample_form
  /\ (run_generate 1%nat sample_form sample_storage).2
       !! py "generated_portfolios/Other.pdf" =
     sample_storage !! py "generated_portfolios/Other.pdf".
Proof.
  assert (H : py "generated_portfolios/Other.pdf"
              <> generate_path latin1_alnum sample_form)
    by (intros H; vm_compute in H; discriminate H).
  split; [exact H|].
  exact (generate_other_files latin1_alnum Z (595, 842)%Z points_width nat
           (plain_render Z nat) 1%nat sample_form sample_storage
           (py "generated_portfolios/Other.pdf") H).
Defined.

Lemma generate_last_write_wins_witness :
  pdf_filename latin1_alnum (build_data latin1_alnum sample_form) =
  pdf_filename latin1_alnum (build_data latin1_alnum other_form)
  /\ plain_render Z nat 2%nat (run_doc other_form)
       (assemble Z points_width (run_doc other_form)
          (build_data latin1_alnum other_form)) =
     Some (run_rendered 2%nat other_form)
  /\ download (pdf_filename latin1_alnum (build_data latin1_alnum sample_form))
       (run_generate 2%nat other_form
          (run_generate 1%nat sample_form sample_storage).2).2 =
     (Returned (send_file (generate_path latin1_alnum sample_form) true
                  (run_rendered 2%nat other_form)),
      (run_generate 2%nat other_form
         (run_generate 1%nat sample_form sample_storage).2).2).
Proof.
  assert (H1 : pdf_filename latin1_alnum (build_data latin1_alnum sample_form)
               = pdf_filename latin1_alnum (build_data latin1_alnum other_form))
    by (vm_compute; reflexivity).
  assert (H2 : plain_render Z nat 2%nat (run_doc other_form)
                 (assemble Z points_width (run_doc other_form)
                    (build_data latin1_alnum other_form)) =
               Some (run_rendered 2%nat other_form))
    by (vm_compute; reflexivity).
  split; [exact H1|]. split; [exact H2|].
  exact (generate_last_write_wins latin1_alnum Z (595, 842)%Z points_width
           nat (plain_render Z nat) 1%nat 2%nat sample_form other_form
           sample_storage (run_rendered 2%nat other_form) H1 H2).
Defined.

Lemma blank_name_defaults_witness :
  forallb isspace (form_get blank_form "name") = true
  /\ pdf_filename latin1_alnum (build_data latin1_alnum blank_form) =
     py "portfolio.pdf".
Proof.
  assert (H : forallb isspace (form_get blank_form "name") = true)
    by (vm_compute; reflexivity).
  split; [exact H|].
  exact (proj2 (blank_name_defaults latin1_alnum Z points_width
                  (run_doc blank_form) blank_form H)).
Defined.

(** C6, as stated, fails: with a renderer that stamps its output with a
    clock reading, the same form generated at times 1 and 2 leaves different
    bytes at the same path. *)
Lemma generate_twice_bytes_differ :
  (generate latin1_alnum Z (595, 842)%Z points_width nat
     (stamped_render Z nat (fun t => byte_of_char (N.of_nat t))) 2%nat
     sample_form
     (generate latin1_alnum Z (595, 842)%Z points_width nat
        (stamped_render Z nat (fun t => byte_of_char (N.of_nat t))) 1%nat
        sample_form sample_storage).2).2
    !! generate_path latin1_alnum sample_form
  <> (generate latin1_alnum Z (595, 842)%Z points_width nat
        (stamped_render Z nat (fun t => byte_of_char (N.of_nat t))) 1%nat
        sample_form sample_storage).2
       !! generate_path latin1_alnum sample_form.
Proof. vm_compute. intros H. discriminate H. Qed.
